(** * Refresh-token authentication of the blog platform backend

    A shallow embedding of
      - [backend/src/utils/jwt.js]           (module [JwtUtils]),
      - [backend/src/services/authService.js] (module [AuthService]),
      - [backend/src/controllers/authController.js], logout handler
                                             (module [AuthController]),
    together with the collaborators they call: the [jsonwebtoken] package
    (module [Jwt]), the Mongoose [User] model and its collection
    (module [UserModel]). *)

From Stdlib Require Import ZArith String List Bool Lia.
From stdpp Require Import base decidable option strings list gmap fin_maps.

Local Open Scope string_scope.
Local Open Scope list_scope.
Local Open Scope Z_scope.

(** ** Errors ([utils/errors.js]): classes carrying a message. *)

Inductive AppError : Type :=
| AuthenticationError (message : string)
| ConflictError (message : string)
| NotFoundError (message : string)
| ValidationError (message : string).

Inductive Result (A : Type) : Type :=
| Ok (a : A)
| Throw (e : AppError).
Arguments Ok {A} a.
Arguments Throw {A} e.

(** ** The [jsonwebtoken] package, symbolically

    A signed token is the term it was built from: the payload, the
    registered claims added by [sign], and the secret whose HMAC closes it.
    The HS256 encoding is deterministic, so two tokens are the same string
    exactly when these components agree; a signature verifies under a secret
    exactly when the token was signed with it.  Any other string is
    [Opaque]. Times are seconds, as in [Math.floor(Date.now() / 1000)]. *)

Module Jwt.

Inductive Payload : Type :=
| AccessPayload (userId username email role : string)
| RefreshPayload (userId : string).

Definition userId (p : Payload) : string :=
  match p with
  | AccessPayload i _ _ _ => i
  | RefreshPayload i => i
  end.

Record Signed : Type := {
  payload : Payload;
  iat : Z;
  exp : Z;
  iss : string;
  aud : string;
  key : string
}.

Inductive Token : Type :=
| Opaque (s : string)
| Jws (j : Signed).

(** What [verify] hands back: the payload with its registered claims. *)
Record Decoded : Type := {
  claims : Payload;
  d_iat : Z;
  d_exp : Z;
  d_iss : string;
  d_aud : string
}.

Inductive Error : Type :=
| TokenExpiredError
| JsonWebTokenError (message : string)
| NotBeforeError.

#[global] Instance Payload_eq_dec : EqDecision Payload.
Proof. solve_decision. Defined.
#[global] Instance Signed_eq_dec : EqDecision Signed.
Proof. solve_decision. Defined.
#[global] Instance Token_eq_dec : EqDecision Token.
Proof. solve_decision. Defined.

(** [jwt.sign(payload, secret, { expiresIn, issuer, audience })] *)
Definition sign (now : Z) (p : Payload) (secret : string)
           (expiresIn : Z) (issuer audience : string) : Token :=
  Jws {| payload := p; iat := now; exp := now + expiresIn;
         iss := issuer; aud := audience; key := secret |}.

(** [jwt.verify(token, secret, { issuer, audience })]: format, then
    signature, then expiry, then audience, then issuer. *)
Definition verify (now : Z) (t : Token) (secret : string)
           (issuer audience : string) : Error + Decoded :=
  match t with
  | Opaque _ => inl (JsonWebTokenError "jwt malformed")
  | Jws j =>
      if negb (String.eqb (key j) secret) then
        inl (JsonWebTokenError "invalid signature")
      else if exp j <=? now then
        inl TokenExpiredError
      else if negb (String.eqb (aud j) audience) then
        inl (JsonWebTokenError "jwt audience invalid")
      else if negb (String.eqb (iss j) issuer) then
        inl (JsonWebTokenError "jwt issuer invalid")
      else
        inr {| claims := payload j; d_iat := iat j; d_exp := exp j;
               d_iss := iss j; d_aud := aud j |}
  end.

(** JavaScript truthiness of a token string: only [''] is falsy. *)
Definition truthy (t : Token) : bool :=
  match t with
  | Opaque EmptyString => false
  | _ => true
  end.

End Jwt.

(** ** [utils/jwt.js] *)

Module JwtUtils.
Import Jwt.

(** [process.env]: the two secrets, and the two lifetimes already parsed
    to seconds ([None] when the variable is unset). *)
Record Env : Type := {
  JWT_SECRET : string;
  JWT_REFRESH_SECRET : string;
  JWT_EXPIRE : option Z;
  JWT_REFRESH_EXPIRE : option Z
}.

Definition days (n : Z) : Z := n * 24 * 60 * 60.

Definition issuer : string := "blog-platform".
Definition audience : string := "blog-platform-users".

(** [process.env.JWT_EXPIRE || '7d'] *)
Definition accessExpiresIn (env : Env) : Z := default (days 7) (JWT_EXPIRE env).
(** [process.env.JWT_REFRESH_EXPIRE || '30d'] *)
Definition refreshExpiresIn (env : Env) : Z := default (days 30) (JWT_REFRESH_EXPIRE env).

Definition generateAccessToken (env : Env) (now : Z) (p : Payload) : Token :=
  sign now p (JWT_SECRET env) (accessExpiresIn env) issuer audience.

Definition generateRefreshToken (env : Env) (now : Z) (p : Payload) : Token :=
  sign now p (JWT_REFRESH_SECRET env) (refreshExpiresIn env) issuer audience.

Definition verifyAccessToken (env : Env) (now : Z) (t : Token) : Result Decoded :=
  match verify now t (JWT_SECRET env) issuer audience with
  | inr d => Ok d
  | inl TokenExpiredError => Throw (AuthenticationError "Access token has expired")
  | inl (JsonWebTokenError _) => Throw (AuthenticationError "Invalid access token")
  | inl _ => Throw (AuthenticationError "Token verification failed")
  end.

Definition verifyRefreshToken (env : Env) (now : Z) (t : Token) : Result Decoded :=
  match verify now t (JWT_REFRESH_SECRET env) issuer audience with
  | inr d => Ok d
  | inl TokenExpiredError => Throw (AuthenticationError "Refresh token has expired")
  | inl (JsonWebTokenError _) => Throw (AuthenticationError "Invalid refresh token")
  | inl _ => Throw (AuthenticationError "Refresh token verification failed")
  end.

(** The two conditions [verifyRefreshToken] decides, as predicates:
    the token is genuine (well formed, signed with the refresh secret,
    carrying the platform's audience and issuer), and it has expired. *)
Definition refreshSignatureVerifies (env : Env) (t : Token) : bool :=
  match t with
  | Opaque _ => false
  | Jws j => String.eqb (key j) (JWT_REFRESH_SECRET env)
             && String.eqb (aud j) audience && String.eqb (iss j) issuer
  end.

Definition expired (now : Z) (t : Token) : bool :=
  match t with
  | Opaque _ => false
  | Jws j => exp j <=? now
  end.

End JwtUtils.

(** ** The Mongoose [User] model and its collection *)

Module UserModel.
Import Jwt.

(** An element of [user.refreshTokens]; the service reads [rt.token]. *)
Record RefreshEntry : Type := { token : Token }.

Record User : Type := {
  _id : string;
  username : string;
  email : string;
  password : string;
  firstName : string;
  lastName : string;
  role : string;
  avatar : string;
  bio : string;
  isActive : bool;
  emailVerified : bool;
  lastLogin : option Z;
  refreshTokens : list RefreshEntry
}.

Definition with_refreshTokens (u : User) (l : list RefreshEntry) : User :=
  {| _id := _id u; username := username u; email := email u;
     password := password u; firstName := firstName u;
     lastName := lastName u; role := role u; avatar := avatar u;
     bio := bio u; isActive := isActive u;
     emailVerified := emailVerified u; lastLogin := lastLogin u;
     refreshTokens := l |}.

Definition with_password (u : User) (h : string) : User :=
  {| _id := _id u; username := username u; email := email u;
     password := h; firstName := firstName u;
     lastName := lastName u; role := role u; avatar := avatar u;
     bio := bio u; isActive := isActive u;
     emailVerified := emailVerified u; lastLogin := lastLogin u;
     refreshTokens := refreshTokens u |}.

Definition with_lastLogin (u : User) (t : Z) : User :=
  {| _id := _id u; username := username u; email := email u;
     password := password u; firstName := firstName u;
     lastName := lastName u; role := role u; avatar := avatar u;
     bio := bio u; isActive := isActive u;
     emailVerified := emailVerified u; lastLogin := Some t;
     refreshTokens := refreshTokens u |}.

(** The collection, in natural (insertion) order. Identifiers are
    ObjectIds, written as their hex strings. *)
Abbreviation Collection := (list User).

(** [User.findOne(filter)], called without a sort: as MongoDB documents
    it, the first document in natural order that the filter accepts. *)
Definition findOne (filter : User -> bool) (db : Collection) : option User :=
  List.find filter db.

(** [User.findById(id)] *)
Definition findById (id : string) (db : Collection) : option User :=
  findOne (fun u => String.eqb (_id u) id) db.

(** [doc.save()]: writes the document back over the stored one that has
    its [_id]; no document is added when none has it. *)
Fixpoint save (u : User) (db : Collection) : Collection :=
  match db with
  | [] => []
  | d :: rest =>
      if String.eqb (_id d) (_id u) then u :: rest else d :: save u rest
  end.

(** Service code runs against the collection and may throw; what was
    written before a throw stays written. *)
Definition M (A : Type) : Type := Collection -> Result A * Collection.

Definition ret {A} (a : A) : M A := fun db => (Ok a, db).
Definition throw {A} (e : AppError) : M A := fun db => (Throw e, db).
Definition bind {A B} (m : M A) (k : A -> M B) : M B :=
  fun db =>
    match m db with
    | (Ok a, db') => k a db'
    | (Throw e, db') => (Throw e, db')
    end.
Definition query {A} (q : Collection -> A) : M A := fun db => (Ok (q db), db).
Definition persist (u : User) : M unit := fun db => (Ok tt, save u db).
Definition liftResult {A} (r : Result A) : M A := fun db => (r, db).

Declare Scope auth_scope.
Delimit Scope auth_scope with auth.
Notation "'await' x <- m ; k" := (bind m (fun x => k))
  (at level 10, x name, m at level 100, k at level 200) : auth_scope.
Notation "'run' m ; k" := (bind m (fun _ => k))
  (at level 10, m at level 100, k at level 200) : auth_scope.

Local Open Scope auth_scope.

(** Modelled from the spec: [models/User.js] is not among the sources.
    "append the new refresh token string to [user.refreshTokens], then
    persist". *)
Definition addRefreshToken (u : User) (t : Token) : M User :=
  let u' := with_refreshTokens u (refreshTokens u ++ [ {| token := t |} ]) in
  run persist u'; ret u'.

(** Modelled from the spec: [models/User.js] is not among the sources.
    "removes exactly the one presented token from the user's set". *)
Definition removeRefreshToken (u : User) (t : Token) : M User :=
  let u' := with_refreshTokens u
              (List.filter (fun rt => negb (bool_decide (token rt = t)))
                           (refreshTokens u)) in
  run persist u'; ret u'.

(** Modelled from the spec: [models/User.js] is not among the sources.
    "clears the entire [refreshTokens] set for the user". *)
Definition clearRefreshTokens (u : User) : M User :=
  let u' := with_refreshTokens u [] in
  run persist u'; ret u'.

Section Bcrypt.
(** The [bcryptjs] primitives: [hash(plain, salt)] and
    [compare(candidate, hash)]. *)
Variable bcrypt_hash : string -> string -> string.
Variable bcrypt_compare : string -> string -> bool.

(** Modelled from the spec: [models/User.js] is not among the sources.
    "password hash comparison" of a candidate against the stored hash. *)
Definition comparePassword (u : User) (candidate : string) : bool :=
  bcrypt_compare candidate (password u).

(** Modelled from the spec: [models/User.js] is not among the sources.
    [user.password = plain; user.save()] stores the hash of [plain]:
    the model's pre-save hook hashes a modified password with a fresh
    salt. *)
Definition savePassword (u : User) (salt plain : string) : M User :=
  let u' := with_password u (bcrypt_hash plain salt) in
  run persist u'; ret u'.

(** Modelled from the spec: [models/User.js] is not among the sources.
    [User.create(fields)]: a new active document with an empty session
    list and a hashed password, appended to the collection. *)
Definition create (oid salt : string)
           (uname mail plain first last rl : string) : M User :=
  let u := {| _id := oid; username := uname; email := mail;
              password := bcrypt_hash plain salt;
              firstName := first; lastName := last; role := rl;
              avatar := EmptyString; bio := EmptyString; isActive := true;
              emailVerified := false; lastLogin := None;
              refreshTokens := [] |} in
  fun db => (Ok u, db ++ [u]).
End Bcrypt.

(** *** [User.findByIdAndUpdate(id, update, { new: true, runValidators: true })]

    The values a JSON request body can put under a key of the update:
    strings, booleans, and an array of [{ token }] objects. *)
Inductive JsValue : Type :=
| JString (s : string)
| JBool (b : bool)
| JTokens (l : list Token).

Definition set_string (path s : string) (u : User) : User :=
  {| _id := _id u;
     username := if String.eqb path "username" then s else username u;
     email := if String.eqb path "email" then s else email u;
     password := if String.eqb path "password" then s else password u;
     firstName := if String.eqb path "firstName" then s else firstName u;
     lastName := if String.eqb path "lastName" then s else lastName u;
     role := if String.eqb path "role" then s else role u;
     avatar := if String.eqb path "avatar" then s else avatar u;
     bio := if String.eqb path "bio" then s else bio u;
     isActive := isActive u; emailVerified := emailVerified u;
     lastLogin := lastLogin u; refreshTokens := refreshTokens u |}.

Definition set_bool (path : string) (b : bool) (u : User) : User :=
  {| _id := _id u; username := username u; email := email u;
     password := password u; firstName := firstName u;
     lastName := lastName u; role := role u; avatar := avatar u;
     bio := bio u;
     isActive := if String.eqb path "isActive" then b else isActive u;
     emailVerified :=
       if String.eqb path "emailVerified" then b else emailVerified u;
     lastLogin := lastLogin u; refreshTokens := refreshTokens u |}.

Definition stringPaths : list string :=
  ["username"; "email"; "password"; "firstName"; "lastName"; "role";
   "avatar"; "bio"].
Definition boolPaths : list string := ["isActive"; "emailVerified"].

(** Casting one [$set] entry to the type of its schema path; [None] is a
    cast error. Paths outside the schema are dropped (strict mode). *)
Definition castPath (path : string) (v : JsValue) : option (User -> User) :=
  if bool_decide (path ∈ stringPaths) then
    match v with
    | JString s => Some (set_string path s)
    | JBool b => Some (set_string path (if b then "true" else "false"))
    | JTokens _ => None
    end
  else if bool_decide (path ∈ boolPaths) then
    match v with
    | JBool b => Some (set_bool path b)
    | JString s =>
        if bool_decide (s ∈ ["true"; "1"; "yes"]) then Some (set_bool path true)
        else if bool_decide (s ∈ ["false"; "0"; "no"]) then Some (set_bool path false)
        else None
    | JTokens _ => None
    end
  else if String.eqb path "refreshTokens" then
    match v with
    | JTokens l => Some (fun u => with_refreshTokens u (map Build_RefreshEntry l))
    | _ => None
    end
  else Some (fun u => u).

Definition castUpdate (update : gmap string JsValue) : option (User -> User) :=
  map_fold (fun path v acc =>
              match acc, castPath path v with
              | Some f, Some g => Some (fun u => g (f u))
              | _, _ => None
              end)
           (Some (fun u => u)) update.

Section Validators.
(** The schema's validators, run on the update document. *)
Variable runValidators : gmap string JsValue -> bool.

Definition findByIdAndUpdate (id : string) (update : gmap string JsValue)
  : M (option User) :=
  fun db =>
    match castUpdate update with
    | None => (Throw (ValidationError "Cast failed"), db)
    | Some f =>
        if negb (runValidators update) then
          (Throw (ValidationError "Validation failed"), db)
        else
          match findById id db with
          | None => (Ok None, db)
          | Some u => (Ok (Some (f u)), save (f u) db)
          end
    end.
End Validators.

End UserModel.

(** ** [services/authService.js] *)

Module Request.
(** The body of a registration request. *)
Record UserData : Type := {
  username : string;
  email : string;
  password : string;
  firstName : string;
  lastName : string;
  role : option string
}.
End Request.

Module Response.
Record PublicUser : Type := {
  id : string;
  username : string;
  email : string;
  firstName : string;
  lastName : string;
  role : string;
  avatar : string;
  emailVerified : bool
}.
Record Tokens : Type := {
  accessToken : Jwt.Token;
  refreshToken : Jwt.Token
}.
Record AuthResult : Type := {
  user : PublicUser;
  tokens : Tokens
}.
End Response.

Module AuthService.
Import Jwt JwtUtils UserModel.
Local Open Scope auth_scope.

Section Service.
Variable env : Env.
Variable bcrypt_hash : string -> string -> string.
Variable bcrypt_compare : string -> string -> bool.
Variable runValidators : gmap string JsValue -> bool.

Definition generateTokens (now : Z) (user : User) : M Response.AuthResult :=
  let payload :=
    AccessPayload (_id user) (username user) (email user) (role user) in
  let accessToken := generateAccessToken env now payload in
  let refreshToken := generateRefreshToken env now (RefreshPayload (_id user)) in
  await user <- addRefreshToken user refreshToken;
  ret {| Response.user :=
           {| Response.id := _id user;
              Response.username := username user;
              Response.email := email user;
              Response.firstName := firstName user;
              Response.lastName := lastName user;
              Response.role := role user;
              Response.avatar := avatar user;
              Response.emailVerified := emailVerified user |};
         Response.tokens :=
           {| Response.accessToken := accessToken;
              Response.refreshToken := refreshToken |} |}.

(** [oid] and [salt] are the fresh ObjectId and bcrypt salt the call
    draws; [now] is the clock reading. *)
Definition register (oid salt : string) (now : Z)
           (userData : Request.UserData) : M Response.AuthResult :=
  let username := Request.username userData in
  let email := Request.email userData in
  await existingUser <-
    query (findOne (fun u => String.eqb (UserModel.email u) email
                             || String.eqb (UserModel.username u) username));
  match existingUser with
  | Some existingUser =>
      if String.eqb (UserModel.email existingUser) email then
        throw (ConflictError "Email already registered")
      else
        throw (ConflictError "Username already taken")
  | None =>
      await user <-
        create bcrypt_hash oid salt username email
               (Request.password userData)
               (Request.firstName userData) (Request.lastName userData)
               (match Request.role userData with
                | Some r => if String.eqb r EmptyString then "user" else r
                | None => "user"
                end);
      generateTokens now user
  end.

Definition login (now : Z) (email password : string)
  : M Response.AuthResult :=
  await user <- query (findOne (fun u => String.eqb (UserModel.email u) email));
  match user with
  | None => throw (AuthenticationError "Invalid email or password")
  | Some user =>
      if negb (isActive user) then
        throw (AuthenticationError "Invalid email or password")
      else if negb (comparePassword bcrypt_compare user password) then
        throw (AuthenticationError "Invalid email or password")
      else
        let user := with_lastLogin user now in
        run persist user;
        generateTokens now user
  end.

Definition refreshToken (now : Z) (refreshToken : Token)
  : M Response.AuthResult :=
  await decoded <- liftResult (verifyRefreshToken env now refreshToken);
  await user <- query (findById (userId (claims decoded)));
  match user with
  | None => throw (AuthenticationError "User not found or inactive")
  | Some user =>
      if negb (isActive user) then
        throw (AuthenticationError "User not found or inactive")
      else
        let tokenExists :=
          existsb (fun rt => bool_decide (token rt = refreshToken))
                  (refreshTokens user) in
        if negb tokenExists then
          run clearRefreshTokens user;
          throw (AuthenticationError "Invalid refresh token")
        else
          await user <- removeRefreshToken user refreshToken;
          generateTokens now user
  end.

(** [refreshToken] is [None] when the caller passes [undefined]. *)
Definition logout (userId : string) (refreshToken : option Token) : M unit :=
  await user <- query (findById userId);
  match user, refreshToken with
  | Some user, Some refreshToken =>
      if truthy refreshToken then
        run removeRefreshToken user refreshToken; ret tt
      else ret tt
  | _, _ => ret tt
  end.

Definition logoutAll (userId : string) : M unit :=
  await user <- query (findById userId);
  match user with
  | Some user => run clearRefreshTokens user; ret tt
  | None => ret tt
  end.

Definition changePassword (salt : string)
           (userId currentPassword newPassword : string) : M string :=
  await user <- query (findById userId);
  match user with
  | None => throw (NotFoundError "User not found")
  | Some user =>
      if negb (comparePassword bcrypt_compare user currentPassword) then
        throw (AuthenticationError "Current password is incorrect")
      else
        await user <- savePassword bcrypt_hash user salt newPassword;
        run clearRefreshTokens user;
        ret "Password changed successfully"
  end.

Definition allowedUpdates : list string :=
  ["firstName"; "lastName"; "bio"; "avatar"].

(** The [forEach] over [Object.keys(updateData)] that fills [updates]. *)
Definition filterAllowed (updateData : gmap string JsValue)
  : gmap string JsValue :=
  map_fold (fun key v updates =>
              if bool_decide (key ∈ allowedUpdates)
              then <[key := v]> updates else updates)
           ∅ updateData.

Definition updateProfile (userId : string)
           (updateData : gmap string JsValue) : M User :=
  let updates := filterAllowed updateData in
  await user <- findByIdAndUpdate runValidators userId updates;
  match user with
  | None => throw (NotFoundError "User not found")
  | Some user => ret user
  end.

End Service.
End AuthService.

(** ** [controllers/authController.js]: the logout handler *)

Module AuthController.
Import Jwt UserModel.
Local Open Scope auth_scope.

Record HttpResponse : Type := {
  status : Z;
  clearedCookie : option string;
  success : bool;
  message : string
}.

(** [req.user] is the authenticated user, [cookie] is
    [req.cookies.refreshToken]. *)
Definition logout (req_user : User) (cookie : option Token) : M HttpResponse :=
  run (match cookie with
       | Some refreshToken =>
           if truthy refreshToken
           then AuthService.logout (_id req_user) (Some refreshToken)
           else ret tt
       | None => ret tt
       end);
  ret {| status := 200; clearedCookie := Some "refreshToken";
         success := true; message := "Logout successful" |}.

End AuthController.

(** ** Vocabulary of the statements *)

Module Session.
Import Jwt JwtUtils UserModel.

(** The user a presented token names: the [userId] of its payload. *)
Definition namedUser (t : Token) (db : Collection) : option User :=
  match t with
  | Jws j => findById (userId (payload j)) db
  | Opaque _ => None
  end.

Definition names (t : Token) (uid : string) : Prop :=
  exists j, t = Jws j /\ userId (payload j) = uid.

(** The token string is one of the user's registered sessions. *)
Definition registered (t : Token) (u : User) : Prop :=
  t ∈ map token (refreshTokens u).

(** Condition (c): the named user exists, is active, and holds the token. *)
Definition heldByActiveUser (t : Token) (db : Collection) : Prop :=
  exists u, namedUser t db = Some u /\ isActive u = true /\ registered t u.

(** The session list after the presented token is taken out. *)
Definition without (t : Token) (l : list RefreshEntry) : list RefreshEntry :=
  List.filter (fun rt => negb (bool_decide (token rt = t))) l.

(** Everything of a user document except the four profile fields. *)
Definition sameOutsideProfile (u u' : User) : Prop :=
  _id u' = _id u /\ username u' = username u /\ email u' = email u
  /\ password u' = password u /\ role u' = role u
  /\ isActive u' = isActive u /\ emailVerified u' = emailVerified u
  /\ lastLogin u' = lastLogin u /\ refreshTokens u' = refreshTokens u.

Definition invalidRefreshToken : AppError :=
  AuthenticationError "Invalid refresh token".
Definition userNotFound : AppError :=
  AuthenticationError "User not found or inactive".
Definition invalidCredentials : AppError :=
  AuthenticationError "Invalid email or password".


End Session.

(** ** Concrete scenarios *)

Module Scenario.
Import Jwt JwtUtils UserModel.

Definition env0 : Env :=
  {| JWT_SECRET := "access-secret"; JWT_REFRESH_SECRET := "refresh-secret";
     JWT_EXPIRE := None; JWT_REFRESH_EXPIRE := None |}.

(** A stand-in for bcrypt: the hash keeps the plain text before a ['#']. *)
Definition test_hash (plain salt : string) : string :=
  String.append plain (String.append "#" salt).
Definition test_compare (candidate hash : string) : bool :=
  String.prefix (String.append candidate "#") hash.

Definition no_validators (update : gmap string JsValue) : bool := true.

(** Alice's refresh token, issued at second 1000. *)
Definition tokenA : Token :=
  generateRefreshToken env0 1000 (RefreshPayload "u1").

Definition alice : User :=
  {| _id := "u1"; username := "alice"; email := "alice@x.com";
     password := test_hash "Abc123!@#" "s1";
     firstName := "Alice"; lastName := "A"; role := "user";
     avatar := EmptyString; bio := EmptyString; isActive := true; emailVerified := false;
     lastLogin := None; refreshTokens := [ {| token := tokenA |} ] |}.

Definition bob : User :=
  {| _id := "u2"; username := "bob"; email := "bob@x.com";
     password := test_hash "Xyz789!@#" "s2";
     firstName := "Bob"; lastName := "B"; role := "user";
     avatar := EmptyString; bio := EmptyString; isActive := true; emailVerified := false;
     lastLogin := None; refreshTokens := [] |}.

(** Alice after her account was deactivated, her session still listed. *)
Definition alice_inactive : User :=
  {| _id := "u1"; username := "alice"; email := "alice@x.com";
     password := test_hash "Abc123!@#" "s1";
     firstName := "Alice"; lastName := "A"; role := "user";
     avatar := EmptyString; bio := EmptyString; isActive := false; emailVerified := false;
     lastLogin := None; refreshTokens := [ {| token := tokenA |} ] |}.


(** A profile update that also tries to set the role and the e-mail. *)
Definition escalation : gmap string JsValue :=
  <["role" := JString "admin"]>
    (<["email" := JString "eve@x.com"]>
       (<["isActive" := JBool false]>
          (<["bio" := JString "hello"]> ∅))).

End Scenario.

(** ** [utils/jwt.js]: the Authorization header *)

Module JwtHeader.

(** [authHeader] is [None] when the request carries no such header. *)
Definition extractTokenFromHeader (authHeader : option string) : Result string :=
  match authHeader with
  | None => Throw (AuthenticationError "No valid token provided")
  | Some h =>
      if String.eqb h EmptyString || negb (String.prefix "Bearer " h) then
        Throw (AuthenticationError "No valid token provided")
      else
        Ok (String.substring 7 (String.length h - 7) h)
  end.

End JwtHeader.

(** ** [services/authService.js]: reading the current user *)

Module AuthServiceRead.
Import UserModel.
Local Open Scope auth_scope.


End AuthServiceRead.

(** ** [middlewares/auth.js] *)

Module AuthMiddleware.
Import Jwt JwtUtils JwtHeader UserModel.
Local Open Scope auth_scope.

(** What a middleware hands to [next]: nothing, or an error. The
    [AuthorizationError] class is raised only here. *)
Inductive HttpError : Type :=
| ServiceError (e : AppError)
| AuthorizationError (message : string).

Inductive Outcome : Type :=
| Next
| NextError (e : HttpError).

(** [try { m } catch (error) { handler(error) }] *)
Definition tryCatch {A} (m : M A) (handler : AppError -> M A) : M A :=
  fun db =>
    match m db with
    | (Ok a, db') => (Ok a, db')
    | (Throw e, db') => handler e db'
    end.

Section Middleware.
Variable env : Env.
(** How a token string taken from a header reads in the symbolic model of
    [jsonwebtoken]. *)
Variable parseToken : string -> Token.

(** [Ok user] is [req.user = user; next()], [Throw e] is [next(e)]. *)
Definition authenticate (now : Z) (authorization : option string) : M User :=
  await token <- liftResult (extractTokenFromHeader authorization);
  await decoded <- liftResult (verifyAccessToken env now (parseToken token));
  await user <- query (findById (userId (claims decoded)));
  match user with
  | None => throw (AuthenticationError "User not found or inactive")
  | Some user =>
      if negb (isActive user) then
        throw (AuthenticationError "User not found or inactive")
      else ret user
  end.

(** The result is [req.user] when [next()] is called. *)
Definition optionalAuth (now : Z) (authorization : option string)
  : M (option User) :=
  tryCatch
    (match authorization with
     | Some h =>
         if String.eqb h EmptyString then ret None
         else
           await token <- liftResult (extractTokenFromHeader authorization);
           await decoded <- liftResult (verifyAccessToken env now (parseToken token));
           await user <- query (findById (userId (claims decoded)));
           match user with
           | Some user => if isActive user then ret (Some user) else ret None
           | None => ret None
           end
     | None => ret None
     end)
    (fun _ => ret None).

End Middleware.

(** [authorize(...roles)] applied to [req.user]. *)
Definition authorize (roles : list string) (req_user : option User) : Outcome :=
  match req_user with
  | None => NextError (ServiceError (AuthenticationError "Authentication required"))
  | Some user =>
      if negb (bool_decide (role user ∈ roles)) then
        NextError (AuthorizationError
                     (String.append "Access denied. Required roles: "
                                    (String.concat ", " roles)))
      else Next
  end.

(** [requireOwnership(resourceField)] applied to [req.user], [req.resource]
    and [req.body]; an object is the map of its fields, an owner field
    holding the owner's id. *)
Definition requireOwnership (resourceField : string) (req_user : option User)
           (req_resource req_body : option (gmap string string)) : Outcome :=
  match req_user with
  | None => NextError (ServiceError (AuthenticationError "Authentication required"))
  | Some user =>
      if String.eqb (role user) "admin" then Next
      else
        let resource :=
          match req_resource with Some r => Some r | None => req_body end in
        match resource with
        | None => NextError (AuthorizationError "Resource not found")
        | Some resource =>
            let resourceOwnerId := resource !! resourceField in
            if negb (bool_decide (resourceOwnerId = Some (_id user))) then
              NextError (AuthorizationError
                           "Access denied. You can only access your own resources")
            else Next
        end
  end.

End AuthMiddleware.

(** ** [controllers/authController.js]: the refresh handler *)

Module AuthHandlers.
Import Jwt JwtUtils UserModel.
Local Open Scope auth_scope.

Record Reply : Type := {
  status : Z;
  cookie : option Token;
  success : bool;
  message : string;
  data : option (Response.PublicUser * Token)
}.

(** JavaScript [a || b] on two optional token strings. *)
Definition orElse (a b : option Token) : option Token :=
  match a with
  | Some t => if truthy t then a else b
  | None => b
  end.

(** [cookie] is [req.cookies.refreshToken], [body] is
    [req.body.refreshToken]. *)
Definition refreshToken (env : Env) (now : Z) (cookie body : option Token)
  : M Reply :=
  let refreshToken := orElse cookie body in
  match refreshToken with
  | Some t =>
      if negb (truthy t) then
        ret {| status := 401; cookie := None; success := false;
               message := "Refresh token not provided"; data := None |}
      else
        await result <- AuthService.refreshToken env now t;
        ret {| status := 200;
               cookie := Some (Response.refreshToken (Response.tokens result));
               success := true;
               message := "Token refreshed successfully";
               data := Some (Response.user result,
                             Response.accessToken (Response.tokens result)) |}
  | None =>
      ret {| status := 401; cookie := None; success := false;
             message := "Refresh token not provided"; data := None |}
  end.

End AuthHandlers.

(** ** Documents the operations leave behind *)

Module Effects.
Import Jwt JwtUtils UserModel.

(** The user document after a login at [now]. *)
Definition loggedIn (env : Env) (now : Z) (u : User) : User :=
  with_refreshTokens (with_lastLogin u now)
    (refreshTokens u ++
       [ {| token := generateRefreshToken env now (RefreshPayload (_id u)) |} ]).

(** The user document after the presented token [t] was rotated at [now]. *)
Definition rotated (env : Env) (now : Z) (t : Token) (u : User) : User :=
  with_refreshTokens u
    (Session.without t (refreshTokens u) ++
       [ {| token := generateRefreshToken env now (RefreshPayload (_id u)) |} ]).

(** The user document [register] stores: the created user holding the
    refresh token issued to it. *)
Definition registeredUser (env : Env) (bcrypt_hash : string -> string -> string)
           (oid salt : string) (now : Z) (userData : Request.UserData) : User :=
  {| _id := oid; username := Request.username userData;
     email := Request.email userData;
     password := bcrypt_hash (Request.password userData) salt;
     firstName := Request.firstName userData;
     lastName := Request.lastName userData;
     role := match Request.role userData with
             | Some r => if String.eqb r EmptyString then "user" else r
             | None => "user"
             end;
     avatar := EmptyString; bio := EmptyString; isActive := true;
     emailVerified := false; lastLogin := None;
     refreshTokens :=
       [ {| token := generateRefreshToken env now (RefreshPayload oid) |} ] |}.

End Effects.

(** ** Route chains ([routes/auth.js], [routes/comments.js]) *)

Module AuthRoutes.
Import Jwt JwtUtils UserModel AuthMiddleware.
Local Open Scope auth_scope.

Section Routes.
Variable env : Env.
Variable parseToken : string -> Token.


(** [authenticate, authorize(...roles)] at the head of a route, as in
    [router.post('/:id/moderate', authenticate, authorize('admin'), ...)]:
    an error from [authenticate] skips [authorize]. *)
Definition authenticateThenAuthorize (roles : list string) (now : Z)
           (authorization : option string) (db : Collection) : Outcome :=
  match authenticate env parseToken now authorization db with
  | (Ok req_user, _) => authorize roles (Some req_user)
  | (Throw e, _) => NextError (ServiceError e)
  end.

End Routes.
End AuthRoutes.

(** ** More concrete scenarios *)

Module Fixtures.
Import Jwt JwtUtils UserModel.

(** Alice's access token of second 1000, and the string that carries it. *)
Definition accessA : Token :=
  generateAccessToken Scenario.env0 1000
    (AccessPayload "u1" "alice" "alice@x.com" "user").

Definition test_parse (s : string) : Token :=
  if String.eqb s "alice.access.token" then accessA else Opaque s.

Definition carol : Request.UserData :=
  {| Request.username := "carol"; Request.email := "carol@x.com";
     Request.password := "Qwe456!@#"; Request.firstName := "Carol";
     Request.lastName := "C"; Request.role := None |}.

End Fixtures.

(** * Properties *)

Import Jwt JwtUtils UserModel Session.

(** ** The collection *)

Lemma findById_Some_id (id : string) (db : Collection) (u : User) :
  findById id db = Some u -> _id u = id.
Proof.
  unfold findById, findOne. intros H.
  apply List.find_some in H as [_ H]. by apply String.eqb_eq.
Qed.

Lemma findById_save_eq (u : User) (db : Collection) :
  findById (_id u) (save u db) =
  match findById (_id u) db with Some _ => Some u | None => None end.
Proof.
  unfold findById, findOne.
  induction db as [|d rest IH]; simpl; [done|].
  destruct (String.eqb (_id d) (_id u)) eqn:E; simpl.
  - by rewrite String.eqb_refl.
  - by rewrite E.
Qed.

Lemma findById_save_ne (id : string) (u : User) (db : Collection) :
  id <> _id u -> findById id (save u db) = findById id db.
Proof.
  unfold findById, findOne. intros Hne.
  induction db as [|d rest IH]; simpl; [done|].
  destruct (String.eqb (_id d) (_id u)) eqn:E; simpl.
  - apply String.eqb_eq in E.
    assert (String.eqb (_id u) id = false) as -> by (apply String.eqb_neq; congruence).
    assert (String.eqb (_id d) id = false) as -> by (apply String.eqb_neq; congruence).
    done.
  - destruct (String.eqb (_id d) id); [done | apply IH].
Qed.

Lemma save_found (u : User) (db : Collection) :
  findById (_id u) db = Some u -> save u db = db.
Proof.
  unfold findById, findOne.
  induction db as [|d rest IH]; simpl; [done|].
  destruct (String.eqb (_id d) (_id u)) eqn:E.
  - intros [= ->]. done.
  - intros H. by rewrite IH.
Qed.

Lemma save_save (u v : User) (db : Collection) :
  _id v = _id u -> save v (save u db) = save v db.
Proof.
  intros Hid. induction db as [|d rest IH]; simpl; [done|].
  destruct (String.eqb (_id d) (_id u)) eqn:E; simpl.
  - rewrite Hid, String.eqb_refl, E. done.
  - rewrite Hid, E. by rewrite IH.
Qed.

(** ** The token codec *)

Lemma verifyRefreshToken_Ok_iff (env : Env) (now : Z) (t : Token) :
  (exists d, verifyRefreshToken env now t = Ok d) <->
  refreshSignatureVerifies env t = true /\ expired now t = false.
Proof.
  unfold verifyRefreshToken, verify, refreshSignatureVerifies, expired.
  destruct t as [s|j]; simpl.
  - split; [intros [d H]; discriminate | intros [H _]; discriminate].
  - destruct (String.eqb (key j) (JWT_REFRESH_SECRET env)); simpl;
      [|split; [intros [d H]; discriminate | intros [H _]; discriminate]].
    destruct (exp j <=? now); simpl;
      [split; [intros [d H]; discriminate | intros [_ H]; discriminate]|].
    destruct (String.eqb (aud j) audience); simpl;
      [|split; [intros [d H]; discriminate | intros [H _]; discriminate]].
    destruct (String.eqb (iss j) issuer); simpl;
      [|split; [intros [d H]; discriminate | intros [H _]; discriminate]].
    split; eauto.
Qed.

Lemma verifyRefreshToken_Ok_inv (env : Env) (now : Z) (t : Token) (d : Decoded) :
  verifyRefreshToken env now t = Ok d ->
  exists j, t = Jws j /\ claims d = payload j /\ now < exp j.
Proof.
  unfold verifyRefreshToken, verify.
  destruct t as [s|j]; simpl; [discriminate|].
  destruct (String.eqb (key j) (JWT_REFRESH_SECRET env)); simpl; [|discriminate].
  destruct (Z.leb_spec (exp j) now); simpl; [discriminate|].
  destruct (String.eqb (aud j) audience); simpl; [|discriminate].
  destruct (String.eqb (iss j) issuer); simpl; [|discriminate].
  intros [= <-]. exists j. simpl. auto.
Qed.

(** Within its lifetime a genuine token decodes the same way at any time. *)
Lemma verifyRefreshToken_later (env : Env) (now now' : Z) (t : Token) (d : Decoded) :
  verifyRefreshToken env now t = Ok d ->
  expired now' t = false ->
  verifyRefreshToken env now' t = Ok d.
Proof.
  unfold verifyRefreshToken, verify, expired.
  destruct t as [s|j]; simpl; [discriminate|].
  destruct (String.eqb (key j) (JWT_REFRESH_SECRET env)); simpl; [|discriminate].
  destruct (exp j <=? now); simpl; [discriminate|].
  intros H ->. exact H.
Qed.

Lemma verifyRefreshToken_expired (env : Env) (now now' : Z) (t : Token) (d : Decoded) :
  verifyRefreshToken env now t = Ok d ->
  expired now' t = true ->
  verifyRefreshToken env now' t = Throw (AuthenticationError "Refresh token has expired").
Proof.
  unfold verifyRefreshToken, verify, expired.
  destruct t as [s|j]; simpl; [discriminate|].
  destruct (String.eqb (key j) (JWT_REFRESH_SECRET env)); simpl; [|discriminate].
  intros _ ->. done.
Qed.





(** ** The session manager *)

Lemma tokenExists_registered (t : Token) (u : User) :
  existsb (fun rt => bool_decide (token rt = t)) (refreshTokens u) = true
  <-> registered t u.
Proof.
  unfold registered. rewrite List.existsb_exists, list_elem_of_fmap.
  split.
  - intros (rt & Hin & Heq). apply bool_decide_eq_true in Heq.
    exists rt. split; [done | by apply list_elem_of_In].
  - intros (rt & -> & Hin). exists rt. split; [by apply list_elem_of_In|].
    by apply bool_decide_eq_true.
Qed.

Lemma without_not_registered (t : Token) (u : User) :
  ~ registered t u -> without t (refreshTokens u) = refreshTokens u.
Proof.
  unfold registered, without. intros Hnot.
  induction (refreshTokens u) as [|rt l IH]; simpl; [done|].
  rewrite fmap_cons in Hnot. apply not_elem_of_cons in Hnot as [Hne Hl].
  rewrite bool_decide_eq_false_2 by congruence. simpl. by rewrite IH.
Qed.

Lemma elem_of_without (t : Token) (l : list RefreshEntry) (rt : RefreshEntry) :
  rt ∈ without t l <-> rt ∈ l /\ token rt <> t.
Proof.
  unfold without. rewrite !list_elem_of_In, List.filter_In.
  rewrite negb_true_iff, bool_decide_eq_false. done.
Qed.

Lemma with_refreshTokens_same (u : User) :
  with_refreshTokens u (refreshTokens u) = u.
Proof. by destruct u. Qed.

(** [refreshToken], path by path. *)
Lemma refreshToken_unfold (env : Env) (now : Z) (t : Token) (db : Collection) :
  AuthService.refreshToken env now t db =
  match verifyRefreshToken env now t with
  | Throw e => (Throw e, db)
  | Ok d =>
      match findById (userId (claims d)) db with
      | None => (Throw userNotFound, db)
      | Some u =>
          if isActive u then
            if existsb (fun rt => bool_decide (token rt = t)) (refreshTokens u)
            then AuthService.generateTokens env now
                   (with_refreshTokens u (without t (refreshTokens u)))
                   (save (with_refreshTokens u (without t (refreshTokens u))) db)
            else (Throw invalidRefreshToken, save (with_refreshTokens u []) db)
          else (Throw userNotFound, db)
      end
  end.
Proof.
  unfold AuthService.refreshToken, bind, liftResult, query.
  destruct (verifyRefreshToken env now t) as [d|e]; [|done].
  destruct (findById (userId (claims d)) db) as [u|]; [|done].
  destruct (isActive u); simpl; [|done].
  destruct (existsb _ (refreshTokens u)); simpl; done.
Qed.

Lemma generateTokens_Ok (env : Env) (now : Z) (u : User) (db : Collection) :
  exists r,
    AuthService.generateTokens env now u db =
      (Ok r, save (with_refreshTokens u
                     (refreshTokens u ++
                        [ {| token := generateRefreshToken env now (RefreshPayload (_id u)) |} ]))
                  db)
    /\ Response.refreshToken (Response.tokens r)
       = generateRefreshToken env now (RefreshPayload (_id u)).
Proof.
  unfold AuthService.generateTokens, addRefreshToken, bind, persist, ret.
  eexists. split; reflexivity.
Qed.

Lemma namedUser_decoded (env : Env) (now : Z) (t : Token) (d : Decoded) (db : Collection) :
  verifyRefreshToken env now t = Ok d ->
  namedUser t db = findById (userId (claims d)) db.
Proof.
  intros H. apply verifyRefreshToken_Ok_inv in H as (j & -> & -> & _). done.
Qed.

(** C1, as the code has it: [refreshToken] mints a new pair exactly when
    the presented token is genuine under the refresh secret, has not
    expired, and is registered to the user it names, that user existing and
    being active. For a genuine, unexpired token: if the named user exists
    and is active but does not hold the token, every session of that user
    is cleared and the call fails with "Invalid refresh token"; if the named
    user is missing or inactive, the call fails with "User not found or
    inactive" and nothing is written. *)
Theorem refresh_usable_iff (env : Env) (now : Z) (t : Token) (db : Collection) :
  ((exists r db', AuthService.refreshToken env now t db = (Ok r, db'))
   <-> refreshSignatureVerifies env t = true /\ expired now t = false
       /\ heldByActiveUser t db)
  /\ (refreshSignatureVerifies env t = true -> expired now t = false ->
      match namedUser t db with
      | Some u =>
          if isActive u then
            ~ registered t u ->
            AuthService.refreshToken env now t db
            = (Throw invalidRefreshToken, save (with_refreshTokens u []) db)
          else
            AuthService.refreshToken env now t db = (Throw userNotFound, db)
      | None =>
          AuthService.refreshToken env now t db = (Throw userNotFound, db)
      end).
Proof.
  rewrite refreshToken_unfold. split.
  - split.
    + intros (r & db' & H).
      destruct (verifyRefreshToken env now t) as [d|e] eqn:Hv; [|discriminate].
      assert (exists d, verifyRefreshToken env now t = Ok d) as Hex by eauto.
      apply verifyRefreshToken_Ok_iff in Hex as [Hs He].
      split; [done|]. split; [done|].
      unfold heldByActiveUser. rewrite (namedUser_decoded _ _ _ _ db Hv).
      destruct (findById (userId (claims d)) db) as [u|]; [|discriminate].
      destruct (isActive u) eqn:Ha; [|discriminate].
      destruct (existsb _ (refreshTokens u)) eqn:Hx; [|discriminate].
      exists u. split; [done|]. split; [done|]. by apply tokenExists_registered.
    + intros (Hs & He & u & Hn & Ha & Hreg).
      destruct (proj2 (verifyRefreshToken_Ok_iff env now t) (conj Hs He)) as [d Hv].
      rewrite Hv. rewrite (namedUser_decoded _ _ _ _ db Hv) in Hn.
      rewrite Hn, Ha. apply tokenExists_registered in Hreg. rewrite Hreg.
      destruct (generateTokens_Ok env now
                  (with_refreshTokens u (without t (refreshTokens u)))
                  (save (with_refreshTokens u (without t (refreshTokens u))) db))
        as (r & Hr & _).
      eauto.
  - intros Hs He.
    destruct (proj2 (verifyRefreshToken_Ok_iff env now t) (conj Hs He)) as [d Hv].
    rewrite Hv, (namedUser_decoded _ _ _ _ db Hv).
    destruct (findById (userId (claims d)) db) as [u|]; [|done].
    destruct (isActive u); [|done].
    intros Hnot.
    destruct (existsb _ (refreshTokens u)) eqn:Hx; [|done].
    apply tokenExists_registered in Hx. contradiction.
Qed.

(** C1 at a concrete collection: Alice's registered token, presented half
    way through its life, mints a new pair. *)
Lemma refresh_usable_iff_witness :
  exists r db',
    AuthService.refreshToken Scenario.env0 1500 Scenario.tokenA [Scenario.alice]
    = (Ok r, db').
Proof.
  apply (proj2 (proj1 (refresh_usable_iff Scenario.env0 1500 Scenario.tokenA
                         [Scenario.alice]))).
  split; [reflexivity|]. split; [reflexivity|].
  exists Scenario.alice. split; [reflexivity|]. split; [reflexivity|].
  unfold registered. simpl. apply list_elem_of_here.
Defined.

(** C1 as stated fails for an inactive user: the token is genuine and
    unexpired, condition (c) does not hold, yet the call fails with "User
    not found or inactive" and the user's sessions stay as they were. *)
Lemma refresh_inactive_user_not_revoked :
  refreshSignatureVerifies Scenario.env0 Scenario.tokenA = true
  /\ expired 1500 Scenario.tokenA = false
  /\ ~ heldByActiveUser Scenario.tokenA [Scenario.alice_inactive]
  /\ AuthService.refreshToken Scenario.env0 1500 Scenario.tokenA
       [Scenario.alice_inactive]
     = (Throw userNotFound, [Scenario.alice_inactive])
  /\ userNotFound <> invalidRefreshToken
  /\ refreshTokens Scenario.alice_inactive <> [].
Proof.
  split; [reflexivity|]. split; [reflexivity|]. split.
  - intros (u & Hn & Ha & _). vm_compute in Hn.
    injection Hn as <-. discriminate Ha.
  - split; [reflexivity|]. split; discriminate.
Qed.

Lemma namedUser_Some_id (t : Token) (db : Collection) (u : User) :
  namedUser t db = Some u -> names t (_id u).
Proof.
  destruct t as [s|j]; simpl; [discriminate|].
  intros H. apply findById_Some_id in H. exists j. done.
Qed.

Lemma findById_save_found (id : string) (u u' : User) (db : Collection) :
  findById id db = Some u -> _id u' = _id u ->
  findById id (save u' db) = Some u'.
Proof.
  intros H Hid. pose proof (findById_Some_id _ _ _ H) as Hu.
  rewrite <- Hu, <- Hid, findById_save_eq, Hid, Hu, H. done.
Qed.

Lemma namedUser_findById (t : Token) (db : Collection) (u : User) :
  namedUser t db = Some u -> findById (_id u) db = Some u.
Proof.
  destruct t as [s|j]; simpl; [discriminate|].
  intros H. by rewrite (findById_Some_id _ _ _ H).
Qed.


(** What a successful refresh did. *)
Lemma refreshToken_Ok_inv (env : Env) (now : Z) (t : Token) (db db' : Collection)
      (r : Response.AuthResult) :
  AuthService.refreshToken env now t db = (Ok r, db') ->
  exists u,
    refreshSignatureVerifies env t = true /\ expired now t = false
    /\ namedUser t db = Some u /\ isActive u = true /\ registered t u
    /\ Response.refreshToken (Response.tokens r)
       = generateRefreshToken env now (RefreshPayload (_id u))
    /\ db' = save (with_refreshTokens u
                     (without t (refreshTokens u) ++
                        [ {| token := generateRefreshToken env now (RefreshPayload (_id u)) |} ]))
                  db.
Proof.
  rewrite refreshToken_unfold.
  destruct (verifyRefreshToken env now t) as [d|e] eqn:Hv; [|discriminate].
  assert (exists d, verifyRefreshToken env now t = Ok d) as Hex by eauto.
  apply verifyRefreshToken_Ok_iff in Hex as [Hs He].
  rewrite <- (namedUser_decoded _ _ _ _ db Hv).
  destruct (namedUser t db) as [u|] eqn:Hn; [|discriminate].
  destruct (isActive u) eqn:Ha; [|discriminate].
  destruct (existsb _ (refreshTokens u)) eqn:Hx; [|discriminate].
  intros H.
  destruct (generateTokens_Ok env now
              (with_refreshTokens u (without t (refreshTokens u)))
              (save (with_refreshTokens u (without t (refreshTokens u))) db))
    as (r' & Hr & Htok).
  rewrite Hr in H. injection H as <- <-.
  exists u. repeat (split; [done|]).
  split; [by apply tokenExists_registered|].
  split; [exact Htok|].
  simpl. rewrite save_save by done. done.
Qed.

(** Presenting a token its named user does not hold always fails; when the
    token is genuine and unexpired and the user active, it fails with
    "Invalid refresh token" and empties the user's session list. *)
Lemma refreshToken_unregistered (env : Env) (now : Z) (t : Token)
      (db : Collection) (u : User) :
  namedUser t db = Some u -> ~ registered t u ->
  exists e db',
    AuthService.refreshToken env now t db = (Throw e, db')
    /\ (refreshSignatureVerifies env t = true -> expired now t = false ->
        isActive u = true ->
        e = invalidRefreshToken /\ db' = save (with_refreshTokens u []) db).
Proof.
  intros Hn Hnot. rewrite refreshToken_unfold.
  destruct (verifyRefreshToken env now t) as [d|e] eqn:Hv.
  - rewrite <- (namedUser_decoded _ _ _ _ db Hv), Hn.
    destruct (isActive u) eqn:Ha.
    + destruct (existsb _ (refreshTokens u)) eqn:Hx.
      * apply tokenExists_registered in Hx. contradiction.
      * eauto.
    + do 2 eexists. split; [done|]. intros _ _ [=].
  - do 2 eexists. split; [done|]. intros Hs He _.
    destruct (proj2 (verifyRefreshToken_Ok_iff env now t) (conj Hs He)) as [d Hd].
    congruence.
Qed.




(** ** Registration *)




(** ** Login *)

(** C4: in each of the three failure cases of [login] (no user with the
    e-mail, an inactive user, a failed password comparison) the call throws
    the [AuthenticationError] with message "Invalid email or password" and
    writes nothing; [login] throws no other error, so any two failing runs,
    whatever their collections, e-mails and passwords, throw equal errors. *)
Theorem login_failure_indistinguishable (env : Env)
        (bcrypt_compare : string -> string -> bool)
        (now : Z) (mail pw : string) (db : Collection) :
  (findOne (fun u => String.eqb (email u) mail) db = None
   \/ (exists u, findOne (fun u => String.eqb (email u) mail) db = Some u
                 /\ isActive u = false)
   \/ (exists u, findOne (fun u => String.eqb (email u) mail) db = Some u
                 /\ comparePassword bcrypt_compare u pw = false) ->
   AuthService.login env bcrypt_compare now mail pw db
   = (Throw invalidCredentials, db))
  /\ (forall e db',
        AuthService.login env bcrypt_compare now mail pw db = (Throw e, db') ->
        e = invalidCredentials /\ db' = db)
  /\ (forall now2 mail2 pw2 db2 e1 e2 db1' db2',
        AuthService.login env bcrypt_compare now mail pw db = (Throw e1, db1') ->
        AuthService.login env bcrypt_compare now2 mail2 pw2 db2 = (Throw e2, db2') ->
        e1 = e2).
Proof.
  assert (forall now mail pw db e db',
            AuthService.login env bcrypt_compare now mail pw db = (Throw e, db') ->
            e = invalidCredentials /\ db' = db) as Honly.
  { clear. intros now mail pw db e db'.
    unfold AuthService.login, bind, query, throw, persist.
    destruct (findOne _ db) as [u|]; [|by intros [= <- <-]].
    destruct (isActive u); simpl; [|by intros [= <- <-]].
    destruct (comparePassword bcrypt_compare u pw); simpl; [|by intros [= <- <-]].
    intros H.
    destruct (generateTokens_Ok env now (with_lastLogin u now)
                (save (with_lastLogin u now) db)) as (r & Hr & _).
    rewrite Hr in H. discriminate. }
  split; [|split].
  - unfold AuthService.login, bind, query, throw.
    intros [-> | [(u & -> & Ha) | (u & -> & Hc)]]; [done | by rewrite Ha |].
    destruct (isActive u); simpl; [|done]. by rewrite Hc.
  - apply Honly.
  - intros now2 mail2 pw2 db2 e1 e2 db1' db2' H1 H2.
    apply Honly in H1 as [-> _]. apply Honly in H2 as [-> _]. done.
Qed.

(** C4 at a concrete collection: a wrong password for Alice and an unknown
    e-mail fail alike. *)
Lemma login_failure_indistinguishable_witness :
  AuthService.login Scenario.env0 Scenario.test_compare 5000
    "alice@x.com" "wrongpassword" [Scenario.alice; Scenario.bob]
  = (Throw invalidCredentials, [Scenario.alice; Scenario.bob])
  /\ AuthService.login Scenario.env0 Scenario.test_compare 5000
       "wrong@x.com" "Abc123!@#" [Scenario.alice; Scenario.bob]
     = (Throw invalidCredentials, [Scenario.alice; Scenario.bob]).
Proof.
  split.
  - apply (proj1 (login_failure_indistinguishable Scenario.env0
                    Scenario.test_compare 5000 "alice@x.com" "wrongpassword"
                    [Scenario.alice; Scenario.bob])).
    right. right. exists Scenario.alice. split; reflexivity.
  - apply (proj1 (login_failure_indistinguishable Scenario.env0
                    Scenario.test_compare 5000 "wrong@x.com" "Abc123!@#"
                    [Scenario.alice; Scenario.bob])).
    left. reflexivity.
Defined.

(** ** Password change and sign-out everywhere *)

Lemma changePassword_unfold (bcrypt_hash : string -> string -> string)
      (bcrypt_compare : string -> string -> bool)
      (salt uid cur new : string) (db : Collection) :
  AuthService.changePassword bcrypt_hash bcrypt_compare salt uid cur new db =
  match findById uid db with
  | None => (Throw (NotFoundError "User not found"), db)
  | Some u =>
      if comparePassword bcrypt_compare u cur then
        (Ok "Password changed successfully",
         save (with_refreshTokens (with_password u (bcrypt_hash new salt)) []) db)
      else (Throw (AuthenticationError "Current password is incorrect"), db)
  end.
Proof.
  unfold AuthService.changePassword, bind, query, throw, savePassword,
    clearRefreshTokens, persist, ret.
  destruct (findById uid db) as [u|]; [|done].
  destruct (comparePassword bcrypt_compare u cur); simpl; [|done].
  by rewrite save_save.
Qed.





(** C9: a failing [changePassword] leaves the collection as it was, so the
    stored password hash and the session list of every user are what they
    were; and it fails only with [NotFoundError] for a missing user or with
    "Current password is incorrect" for a failed comparison. *)
Theorem changePassword_failure_atomic
        (bcrypt_hash : string -> string -> string)
        (bcrypt_compare : string -> string -> bool)
        (salt uid cur new : string) (db db' : Collection) (e : AppError) :
  AuthService.changePassword bcrypt_hash bcrypt_compare salt uid cur new db
  = (Throw e, db') ->
  db' = db
  /\ (forall id, findById id db' = findById id db)
  /\ ((findById uid db = None /\ e = NotFoundError "User not found")
      \/ (exists u, findById uid db = Some u
                    /\ comparePassword bcrypt_compare u cur = false
                    /\ e = AuthenticationError "Current password is incorrect")).
Proof.
  rewrite changePassword_unfold.
  destruct (findById uid db) as [u|] eqn:Hf.
  - destruct (comparePassword bcrypt_compare u cur) eqn:Hc; [discriminate|].
    intros [= <- <-]. split; [done|]. split; [done|]. right. eauto.
  - intros [= <- <-]. split; [done|]. split; [done|]. by left.
Qed.

(** C9 at a concrete collection: a wrong current password for Alice. *)
Lemma changePassword_failure_atomic_witness :
  snd (AuthService.changePassword Scenario.test_hash Scenario.test_compare
         "s9" "u1" "wrongpassword" "New456!@#" [Scenario.alice; Scenario.bob])
  = [Scenario.alice; Scenario.bob].
Proof.
  exact (proj1 (changePassword_failure_atomic Scenario.test_hash
                  Scenario.test_compare "s9" "u1" "wrongpassword"
                  "New456!@#" [Scenario.alice; Scenario.bob] _ _ eq_refl)).
Defined.

(** ** Logout *)

Lemma without_idem (t : Token) (l : list RefreshEntry) :
  without t (without t l) = without t l.
Proof.
  unfold without. induction l as [|rt l IH]; simpl; [done|].
  destruct (negb (bool_decide (token rt = t))) eqn:E; simpl; [|done].
  by rewrite E, IH.
Qed.

Lemma logout_unfold (uid : string) (presented : option Token) (db : Collection) :
  AuthService.logout uid presented db =
  (Ok tt,
   match findById uid db, presented with
   | Some u, Some t =>
       if truthy t
       then save (with_refreshTokens u (without t (refreshTokens u))) db
       else db
   | _, _ => db
   end).
Proof.
  unfold AuthService.logout, bind, query, removeRefreshToken, persist, ret.
  destruct (findById uid db) as [u|]; [|done].
  destruct presented as [t|]; [|done].
  destruct (truthy t); done.
Qed.

(** C8: [logout] returns normally for every user id and every presented
    token, given or omitted. When the user exists and a non-empty token is
    presented, the user's session list becomes the old list without the
    entries carrying that token, every other entry staying in place, and it
    is the old list itself when the token was not registered; when the user
    is absent or the token is omitted or empty, nothing changes. No other
    user is touched, a second identical [logout] changes nothing more, and
    the controller's handler answers 200 with the same effect. *)
Theorem logout_never_fails (uid : string) (presented : option Token)
        (db : Collection) :
  exists db',
    AuthService.logout uid presented db = (Ok tt, db')
    /\ (forall id, id <> uid -> findById id db' = findById id db)
    /\ match findById uid db, presented with
       | Some u, Some t =>
           if truthy t then
             findById uid db'
             = Some (with_refreshTokens u (without t (refreshTokens u)))
             /\ (forall rt, rt ∈ without t (refreshTokens u)
                            <-> rt ∈ refreshTokens u /\ token rt <> t)
             /\ (~ registered t u -> db' = db)
           else db' = db
       | _, _ => db' = db
       end
    /\ AuthService.logout uid presented db' = (Ok tt, db')
    /\ (forall req_user, _id req_user = uid ->
          exists resp,
            AuthController.logout req_user presented db = (Ok resp, db')
            /\ AuthController.status resp = 200).
Proof.
  eexists. split; [apply logout_unfold|].
  destruct (findById uid db) as [u|] eqn:Hf.
  2:{ split; [done|]. split; [done|]. split; [by rewrite logout_unfold, Hf|].
      intros req_user Hid. unfold AuthController.logout, bind, ret.
      destruct presented as [t|]; [|eauto].
      destruct (truthy t); [|eauto].
      rewrite Hid, logout_unfold, Hf. eauto. }
  destruct presented as [t|].
  2:{ split; [done|]. split; [done|]. split; [by rewrite logout_unfold, Hf|].
      intros req_user Hid. unfold AuthController.logout, bind, ret. eauto. }
  destruct (truthy t) eqn:Ht.
  2:{ split; [done|]. split; [done|]. split; [by rewrite logout_unfold, Hf, Ht|].
      intros req_user Hid. unfold AuthController.logout, bind, ret.
      rewrite Ht. eauto. }
  pose proof (findById_Some_id _ _ _ Hf) as Hid.
  set (u' := with_refreshTokens u (without t (refreshTokens u))).
  assert (findById uid (save u' db) = Some u') as Hf'
    by (by apply (findById_save_found _ u)).
  split; [|split; [|split]].
  - intros id Hne. apply findById_save_ne. simpl. congruence.
  - split; [done|]. split; [apply elem_of_without|].
    intros Hnot. unfold u'. rewrite (without_not_registered _ _ Hnot).
    rewrite with_refreshTokens_same. apply save_found. by rewrite Hid.
  - rewrite logout_unfold, Hf', Ht. f_equal.
    assert (with_refreshTokens u' (without t (refreshTokens u')) = u') as ->
      by (unfold u', with_refreshTokens; simpl; by rewrite without_idem).
    apply save_found. replace (_id u') with uid by (simpl; congruence). done.
  - intros req_user Hreq. unfold AuthController.logout, bind, ret.
    rewrite Ht, Hreq, logout_unfold, Hf, Ht. eauto.
Qed.

(** C8 at a concrete collection: Alice logs out with an unregistered token,
    and nothing changes. *)
Lemma logout_never_fails_witness :
  AuthService.logout "u1" (Some (Opaque "stale")) [Scenario.alice; Scenario.bob]
  = (Ok tt, [Scenario.alice; Scenario.bob]).
Proof.
  destruct (logout_never_fails "u1" (Some (Opaque "stale"))
              [Scenario.alice; Scenario.bob]) as (db' & Hcall & _ & Hu & _).
  simpl in Hu. destruct Hu as (_ & _ & Hsame).
  rewrite Hcall, Hsame; [reflexivity|].
  unfold registered. simpl. intros Hin.
  apply list_elem_of_singleton in Hin. discriminate Hin.
Defined.

(** ** Profile update *)

Lemma filterAllowed_keys (updateData : gmap string JsValue) (k : string) (v : JsValue) :
  AuthService.filterAllowed updateData !! k = Some v ->
  k ∈ AuthService.allowedUpdates.
Proof.
  unfold AuthService.filterAllowed. revert k v.
  apply (map_fold_weak_ind
           (fun (r : gmap string JsValue) (_ : gmap string JsValue) =>
              forall k v, r !! k = Some v -> k ∈ AuthService.allowedUpdates)).
  - intros k v. by rewrite lookup_empty.
  - intros i x m r _ IH k v.
    destruct (bool_decide (i ∈ AuthService.allowedUpdates)) eqn:E; [|apply IH].
    apply bool_decide_eq_true in E.
    destruct (decide (i = k)) as [->|Hne]; [done|].
    rewrite lookup_insert_ne by done. apply IH.
Qed.

Lemma sameOutsideProfile_refl (u : User) : sameOutsideProfile u u.
Proof. unfold sameOutsideProfile. tauto. Qed.

Lemma sameOutsideProfile_trans (u v w : User) :
  sameOutsideProfile u v -> sameOutsideProfile v w -> sameOutsideProfile u w.
Proof. unfold sameOutsideProfile. intuition congruence. Qed.

Lemma castPath_allowed (k : string) (v : JsValue) (f : User -> User) :
  k ∈ AuthService.allowedUpdates -> castPath k v = Some f ->
  forall u, sameOutsideProfile u (f u).
Proof.
  unfold AuthService.allowedUpdates. intros Hk.
  repeat (apply elem_of_cons in Hk as [->|Hk]); [| | | |by apply elem_of_nil in Hk];
    unfold castPath; rewrite bool_decide_eq_true_2
      by (unfold stringPaths; repeat constructor);
    destruct v as [s|b|l]; intros [= <-] u;
    unfold sameOutsideProfile; simpl; tauto.
Qed.

Lemma castUpdate_allowed (update : gmap string JsValue) :
  (forall k v, update !! k = Some v -> k ∈ AuthService.allowedUpdates) ->
  forall f, castUpdate update = Some f -> forall u, sameOutsideProfile u (f u).
Proof.
  unfold castUpdate.
  apply (map_fold_weak_ind
           (fun (r : option (User -> User)) (m : gmap string JsValue) =>
              (forall k v, m !! k = Some v -> k ∈ AuthService.allowedUpdates) ->
              forall f, r = Some f -> forall u, sameOutsideProfile u (f u))).
  - intros _ f [= <-] u. apply sameOutsideProfile_refl.
  - intros i x m r Hnone IH Hkeys f Hf u.
    destruct r as [g|]; [|discriminate].
    destruct (castPath i x) as [h|] eqn:Hc; [|discriminate].
    injection Hf as <-.
    apply (sameOutsideProfile_trans _ (g u)).
    + apply IH; [|done]. intros k v Hk. apply (Hkeys k v).
      rewrite lookup_insert_ne; [done|]. intros ->. congruence.
    + apply (castPath_allowed i x); [|done].
      apply (Hkeys i x). by rewrite lookup_insert_eq.
Qed.

(** C10: whatever keys [updateData] carries and whatever the outcome of
    the call, [updateProfile] leaves every stored user's [_id], [username],
    [email], [password], [role], [isActive], [emailVerified], [lastLogin]
    and [refreshTokens] as they were (only [firstName], [lastName], [bio]
    and [avatar] may differ), creates and deletes no user, and leaves
    every user other than [userId] wholly unchanged. *)
Theorem updateProfile_frame (runValidators : gmap string JsValue -> bool)
        (uid : string) (updateData : gmap string JsValue) (db : Collection) :
  exists r db',
    AuthService.updateProfile runValidators uid updateData db = (r, db')
    /\ forall id,
         match findById id db with
         | Some u =>
             exists u', findById id db' = Some u'
                        /\ sameOutsideProfile u u'
                        /\ (id <> uid -> u' = u)
         | None => findById id db' = None
         end.
Proof.
  assert (forall id,
            match findById id db with
            | Some u => exists u', findById id db = Some u'
                                   /\ sameOutsideProfile u u' /\ (id <> uid -> u' = u)
            | None => findById id db = None
            end) as Hsame.
  { intros id. destruct (findById id db) as [u|]; [|done].
    exists u. split; [done|]. split; [apply sameOutsideProfile_refl | done]. }
  unfold AuthService.updateProfile, bind, findByIdAndUpdate, throw, ret.
  destruct (castUpdate (AuthService.filterAllowed updateData)) as [f|] eqn:Hc;
    [|eauto].
  destruct (runValidators _); simpl; [|eauto].
  destruct (findById uid db) as [u|] eqn:Hf; [|eauto].
  pose proof (castUpdate_allowed _ (filterAllowed_keys updateData) f Hc u) as Hframe.
  assert (_id (f u) = _id u) as Hid by apply Hframe.
  pose proof (findById_Some_id _ _ _ Hf) as Hu.
  do 2 eexists. split; [done|].
  intros id. destruct (decide (id = uid)) as [->|Hne].
  - rewrite Hf. exists (f u). split; [by apply (findById_save_found _ u)|].
    split; [done | congruence].
  - rewrite findById_save_ne by congruence. apply Hsame.
Qed.

(** C10 at a concrete request: a body that also carries [role], [email]
    and [isActive] changes Alice's [bio] and nothing else. *)
Lemma updateProfile_escalation_ignored :
  exists u',
    AuthService.updateProfile Scenario.no_validators "u1" Scenario.escalation
      [Scenario.alice; Scenario.bob]
    = (Ok u', [u'; Scenario.bob])
    /\ bio u' = "hello" /\ role u' = "user" /\ email u' = "alice@x.com"
    /\ isActive u' = true.
Proof.
  eexists. split; [vm_compute; reflexivity|]. repeat split.
Qed.

(** * Further properties of the authentication code *)

Import JwtHeader Effects.

(** ** The Authorization header *)

Lemma prefix_append (p t : string) : String.prefix p (String.append p t) = true.
Proof.
  induction p as [|a p IH]; simpl; [by destruct t|].
  destruct (Ascii.ascii_dec a a); [done | congruence].
Qed.

Lemma substring_whole (t : string) : String.substring 0 (String.length t) t = t.
Proof. induction t as [|a t IH]; simpl; [done | by rewrite IH]. Qed.

Lemma substring_after_append (p t : string) :
  String.substring (String.length p)
    (String.length (String.append p t) - String.length p) (String.append p t) = t.
Proof.
  induction p as [|a p IH]; simpl.
  - rewrite Nat.sub_0_r. apply substring_whole.
  - exact IH.
Qed.

Lemma prefix_split (p h : string) :
  String.prefix p h = true ->
  h = String.append p
        (String.substring (String.length p) (String.length h - String.length p) h).
Proof.
  revert h. induction p as [|a p IH]; intros h; simpl.
  - intros _. by rewrite Nat.sub_0_r, substring_whole.
  - destruct h as [|b h]; simpl; [discriminate|].
    destruct (Ascii.ascii_dec a b) as [->|]; [|discriminate].
    intros H.
    change (String b h
            = String b (String.append p
                          (String.substring (String.length p)
                             (String.length h - String.length p) h))).
    f_equal. by apply IH.
Qed.

Lemma extractTokenFromHeader_Ok_iff (authHeader : option string) (t : string) :
  extractTokenFromHeader authHeader = Ok t
  <-> authHeader = Some (String.append "Bearer " t).
Proof.
  unfold extractTokenFromHeader. split.
  - destruct authHeader as [h|]; [|discriminate].
    destruct (String.eqb h EmptyString) eqn:E0; simpl; [discriminate|].
    destruct (String.prefix "Bearer " h) eqn:Ep; simpl; [|discriminate].
    intros [= <-]. f_equal. exact (prefix_split "Bearer " h Ep).
  - intros ->.
    rewrite (prefix_append "Bearer " t).
    change (String.eqb (String.append "Bearer " t) EmptyString) with false.
    simpl negb. simpl orb. cbv iota. f_equal.
    exact (substring_after_append "Bearer " t).
Qed.

(** X1: [extractTokenFromHeader] returns a token exactly for a header that
    is "Bearer " (capital B, one space) followed by that token, the token
    being everything after the seventh character; for a missing header and
    for every other header it throws "No valid token provided". *)
Theorem extractTokenFromHeader_bearer (authHeader : option string) (t : string) :
  (extractTokenFromHeader authHeader = Ok t
   <-> authHeader = Some (String.append "Bearer " t))
  /\ ((forall t', authHeader <> Some (String.append "Bearer " t')) ->
      extractTokenFromHeader authHeader
      = Throw (AuthenticationError "No valid token provided")).
Proof.
  split; [apply extractTokenFromHeader_Ok_iff|].
  unfold extractTokenFromHeader.
  intros Hnot. destruct authHeader as [h|]; [|done].
  destruct (String.eqb h EmptyString) eqn:E0; simpl; [done|].
  destruct (String.prefix "Bearer " h) eqn:Ep; simpl; [|done].
  exfalso. apply (Hnot (String.substring 7 (String.length h - 7) h)).
  f_equal. exact (prefix_split "Bearer " h Ep).
Qed.

(** X1 on three headers: a well-formed one, a lower-case scheme, and the
    bare scheme, whose token is the empty string. *)
Lemma extractTokenFromHeader_bearer_witness :
  extractTokenFromHeader (Some "Bearer abc.def.ghi") = Ok "abc.def.ghi"
  /\ extractTokenFromHeader (Some "bearer abc.def.ghi")
     = Throw (AuthenticationError "No valid token provided")
  /\ extractTokenFromHeader (Some "Bearer ") = Ok EmptyString.
Proof.
  split; [|split].
  - apply (proj1 (extractTokenFromHeader_bearer (Some "Bearer abc.def.ghi")
                    "abc.def.ghi")). reflexivity.
  - apply (proj2 (extractTokenFromHeader_bearer (Some "bearer abc.def.ghi")
                    EmptyString)). intros t'. discriminate.
  - apply (proj1 (extractTokenFromHeader_bearer (Some "Bearer ") EmptyString)).
    reflexivity.
Defined.

(** ** Token lifetimes *)



(** ** Lookups after a write *)

Lemma findOne_save_hit (q : User -> bool) (db : Collection) (u u' : User) :
  findOne q db = Some u -> _id u' = _id u -> q u' = true ->
  findOne q (save u' db) = Some u'.
Proof.
  unfold findOne. intros Hf Hid Hq.
  induction db as [|d rest IH]; simpl in *; [discriminate|].
  destruct (String.eqb (_id d) (_id u')) eqn:E; simpl.
  - by rewrite Hq.
  - destruct (q d) eqn:Hd.
    + injection Hf as ->. rewrite Hid, String.eqb_refl in E. discriminate.
    + by apply IH.
Qed.

Lemma findById_after_save (u u' : User) (db : Collection) :
  u ∈ db -> _id u' = _id u -> findById (_id u) (save u' db) = Some u'.
Proof.
  intros Hin Hid.
  destruct (findById (_id u) db) as [d|] eqn:Hf.
  - apply (findById_save_found _ d); [done|].
    rewrite (findById_Some_id _ _ _ Hf). done.
  - unfold findById, findOne in Hf. apply list_elem_of_In in Hin.
    pose proof (List.find_none _ _ Hf u Hin) as Hq. simpl in Hq.
    rewrite String.eqb_refl in Hq. discriminate.
Qed.

Lemma findOne_elem (q : User -> bool) (db : Collection) (u : User) :
  findOne q db = Some u -> u ∈ db /\ q u = true.
Proof.
  unfold findOne. intros H. apply List.find_some in H as [Hin Hq].
  split; [by apply list_elem_of_In | done].
Qed.

(** ** Login *)

Lemma generateTokens_result (env : Env) (now : Z) (u : User) (db : Collection) :
  AuthService.generateTokens env now u db =
  (Ok {| Response.user :=
           {| Response.id := _id u; Response.username := username u;
              Response.email := email u; Response.firstName := firstName u;
              Response.lastName := lastName u; Response.role := role u;
              Response.avatar := avatar u;
              Response.emailVerified := emailVerified u |};
         Response.tokens :=
           {| Response.accessToken :=
                generateAccessToken env now
                  (AccessPayload (_id u) (username u) (email u) (role u));
              Response.refreshToken :=
                generateRefreshToken env now (RefreshPayload (_id u)) |} |},
   save (with_refreshTokens u
           (refreshTokens u ++
              [ {| token := generateRefreshToken env now (RefreshPayload (_id u)) |} ]))
        db).
Proof. reflexivity. Qed.

Lemma login_unfold (env : Env) (bcrypt_compare : string -> string -> bool)
      (now : Z) (mail pw : string) (db : Collection) :
  AuthService.login env bcrypt_compare now mail pw db =
  match findOne (fun u => String.eqb (email u) mail) db with
  | None => (Throw invalidCredentials, db)
  | Some u =>
      if isActive u then
        if comparePassword bcrypt_compare u pw then
          AuthService.generateTokens env now (with_lastLogin u now)
            (save (with_lastLogin u now) db)
        else (Throw invalidCredentials, db)
      else (Throw invalidCredentials, db)
  end.
Proof.
  unfold AuthService.login, bind, query, throw, persist.
  destruct (findOne _ db) as [u|]; [|done].
  destruct (isActive u); simpl; [|done].
  destruct (comparePassword bcrypt_compare u pw); done.
Qed.

Lemma login_Ok_inv (env : Env) (bcrypt_compare : string -> string -> bool)
      (now : Z) (mail pw : string) (db db' : Collection)
      (r : Response.AuthResult) :
  AuthService.login env bcrypt_compare now mail pw db = (Ok r, db') ->
  exists u,
    findOne (fun u => String.eqb (email u) mail) db = Some u
    /\ isActive u = true /\ comparePassword bcrypt_compare u pw = true
    /\ db' = save (loggedIn env now u) db
    /\ Response.refreshToken (Response.tokens r)
       = generateRefreshToken env now (RefreshPayload (_id u))
    /\ Response.accessToken (Response.tokens r)
       = generateAccessToken env now
           (AccessPayload (_id u) (username u) (email u) (role u))
    /\ Response.id (Response.user r) = _id u.
Proof.
  rewrite login_unfold.
  destruct (findOne _ db) as [u|] eqn:Hf; [|discriminate].
  destruct (isActive u) eqn:Ha; [|discriminate].
  destruct (comparePassword bcrypt_compare u pw) eqn:Hc; [|discriminate].
  rewrite generateTokens_result. intros [= <- <-].
  exists u. repeat (split; [done|]). simpl.
  split; [|done]. by rewrite save_save.
Qed.

(** X3: [login] succeeds exactly when the first user carrying the e-mail is
    active and the password comparison accepts. It then stamps [lastLogin],
    appends the refresh token it returns to that user's sessions, keeping
    every earlier session, and changes no other user. *)
Theorem login_success_effect (env : Env)
        (bcrypt_compare : string -> string -> bool)
        (now : Z) (mail pw : string) (db : Collection) :
  ((exists r db', AuthService.login env bcrypt_compare now mail pw db = (Ok r, db'))
   <-> exists u, findOne (fun u => String.eqb (email u) mail) db = Some u
                 /\ isActive u = true
                 /\ comparePassword bcrypt_compare u pw = true)
  /\ (forall r db',
        AuthService.login env bcrypt_compare now mail pw db = (Ok r, db') ->
        exists u,
          findOne (fun u => String.eqb (email u) mail) db = Some u
          /\ Response.id (Response.user r) = _id u
          /\ findById (_id u) db'
             = Some (with_refreshTokens (with_lastLogin u now)
                       (refreshTokens u ++
                          [ {| token := Response.refreshToken (Response.tokens r) |} ]))
          /\ (forall id, id <> _id u -> findById id db' = findById id db)).
Proof.
  split; [split|].
  - intros (r & db' & H). apply login_Ok_inv in H as (u & Hf & Ha & Hc & _).
    eauto.
  - intros (u & Hf & Ha & Hc). rewrite login_unfold, Hf, Ha, Hc.
    rewrite generateTokens_result. eauto.
  - intros r db' H.
    apply login_Ok_inv in H as (u & Hf & Ha & Hc & -> & Hr & _ & Hid).
    exists u. split; [done|]. split; [done|]. rewrite Hr. split.
    + apply findOne_elem in Hf as [Hin _]. by apply findById_after_save.
    + intros id Hne. by apply findById_save_ne.
Qed.

(** X3 for Alice, who holds one session and opens a second. *)
Lemma login_success_effect_witness :
  exists r db',
    AuthService.login Scenario.env0 Scenario.test_compare 5000
      "alice@x.com" "Abc123!@#" [Scenario.alice; Scenario.bob] = (Ok r, db')
    /\ findById "u1" db'
       = Some (with_refreshTokens (with_lastLogin Scenario.alice 5000)
                 [ {| token := Scenario.tokenA |};
                   {| token := Response.refreshToken (Response.tokens r) |} ]).
Proof.
  destruct (proj2 (proj1 (login_success_effect Scenario.env0
                            Scenario.test_compare 5000 "alice@x.com"
                            "Abc123!@#" [Scenario.alice; Scenario.bob])))
    as (r & db' & H).
  { exists Scenario.alice. repeat split. }
  exists r, db'. split; [exact H|].
  destruct (proj2 (login_success_effect Scenario.env0 Scenario.test_compare
                     5000 "alice@x.com" "Abc123!@#"
                     [Scenario.alice; Scenario.bob]) r db' H)
    as (u & Hf & _ & Hu & _).
  vm_compute in Hf. injection Hf as <-. exact Hu.
Defined.

(** ** Refresh *)

Lemma generated_refresh_genuine (env : Env) (now : Z) (p : Payload) :
  refreshSignatureVerifies env (generateRefreshToken env now p) = true.
Proof.
  unfold generateRefreshToken, sign, refreshSignatureVerifies. simpl.
  by rewrite !String.eqb_refl.
Qed.

Lemma generated_refresh_expired (env : Env) (now now' : Z) (p : Payload) :
  now' < now + refreshExpiresIn env ->
  expired now' (generateRefreshToken env now p) = false.
Proof.
  unfold generateRefreshToken, sign, expired. simpl. intros H.
  destruct (Z.leb_spec (now + refreshExpiresIn env) now'); [lia | done].
Qed.

(** A registered, genuine, unexpired token of an active user refreshes. *)
Lemma refreshToken_registered_Ok (env : Env) (now : Z) (t : Token)
      (db : Collection) (u : User) :
  refreshSignatureVerifies env t = true -> expired now t = false ->
  namedUser t db = Some u -> isActive u = true -> registered t u ->
  AuthService.refreshToken env now t db =
  AuthService.generateTokens env now
    (with_refreshTokens u (without t (refreshTokens u)))
    (save (with_refreshTokens u (without t (refreshTokens u))) db).
Proof.
  intros Hs He Hn Ha Hreg. rewrite refreshToken_unfold.
  destruct (proj2 (verifyRefreshToken_Ok_iff env now t) (conj Hs He)) as [d Hv].
  rewrite Hv, <- (namedUser_decoded _ _ _ _ db Hv), Hn, Ha.
  apply tokenExists_registered in Hreg. by rewrite Hreg.
Qed.

Lemma registered_last (t : Token) (u : User) (l : list RefreshEntry) :
  registered t (with_refreshTokens u (l ++ [ {| token := t |} ])).
Proof.
  unfold registered. simpl. rewrite fmap_app, elem_of_app. right.
  simpl. apply list_elem_of_here.
Qed.

(** X4: the refresh token a successful [login] returns is usable: presented
    to [refreshToken] at any time before its expiry, it mints a new pair
    for the same user. *)
Theorem login_token_refreshes (env : Env)
        (bcrypt_compare : string -> string -> bool)
        (now now' : Z) (mail pw : string) (db db' : Collection)
        (r : Response.AuthResult) :
  AuthService.login env bcrypt_compare now mail pw db = (Ok r, db') ->
  now' < now + refreshExpiresIn env ->
  exists r' db'',
    AuthService.refreshToken env now'
      (Response.refreshToken (Response.tokens r)) db' = (Ok r', db'')
    /\ Response.id (Response.user r') = Response.id (Response.user r).
Proof.
  intros H Hlt.
  apply login_Ok_inv in H as (u & Hf & Ha & _ & -> & -> & _ & ->).
  apply findOne_elem in Hf as [Hin _].
  assert (findById (_id u) (save (loggedIn env now u) db)
          = Some (loggedIn env now u)) as Hu
    by (by apply findById_after_save).
  rewrite (refreshToken_registered_Ok env now' _ _ (loggedIn env now u)).
  - rewrite generateTokens_result. eauto.
  - apply generated_refresh_genuine.
  - by apply generated_refresh_expired.
  - exact Hu.
  - exact Ha.
  - apply registered_last.
Qed.

(** X4 for Alice: the token of a login at second 5000, used at 6000. *)
Lemma login_token_refreshes_witness :
  exists r db' r' db'',
    AuthService.login Scenario.env0 Scenario.test_compare 5000
      "alice@x.com" "Abc123!@#" [Scenario.alice; Scenario.bob] = (Ok r, db')
    /\ AuthService.refreshToken Scenario.env0 6000
         (Response.refreshToken (Response.tokens r)) db' = (Ok r', db'').
Proof.
  destruct (AuthService.login Scenario.env0 Scenario.test_compare 5000
              "alice@x.com" "Abc123!@#" [Scenario.alice; Scenario.bob])
    as [[r|e] db'] eqn:E; [|vm_compute in E; discriminate].
  destruct (login_token_refreshes Scenario.env0 Scenario.test_compare
              5000 6000 "alice@x.com" "Abc123!@#"
              [Scenario.alice; Scenario.bob] db' r E eq_refl)
    as (r' & db'' & H & _).
  exists r, db', r', db''. split; [reflexivity | exact H].
Defined.

(** What a successful refresh returned and wrote. *)
Lemma refreshToken_Ok_effect (env : Env) (now : Z) (t : Token)
      (db db' : Collection) (r : Response.AuthResult) :
  AuthService.refreshToken env now t db = (Ok r, db') ->
  exists u,
    namedUser t db = Some u /\ isActive u = true /\ registered t u
    /\ refreshSignatureVerifies env t = true /\ expired now t = false
    /\ Response.refreshToken (Response.tokens r)
       = generateRefreshToken env now (RefreshPayload (_id u))
    /\ Response.id (Response.user r) = _id u
    /\ db' = save (rotated env now t u) db.
Proof.
  intros H.
  destruct (refreshToken_Ok_inv _ _ _ _ _ _ H)
    as (u & Hs & He & Hn & Ha & Hreg & Htok & Hdb).
  exists u. repeat (split; [done|]). split; [|exact Hdb].
  rewrite (refreshToken_registered_Ok env now t db u Hs He Hn Ha Hreg) in H.
  rewrite generateTokens_result in H. by injection H as <- _.
Qed.

(** X5: rotation can go on: the refresh token a successful [refreshToken]
    returns is itself accepted by [refreshToken], for the same user, at any
    time before its own expiry. *)
Theorem refresh_token_chain (env : Env) (t1 t2 : Z) (tokenA : Token)
        (db db1 : Collection) (r1 : Response.AuthResult) :
  AuthService.refreshToken env t1 tokenA db = (Ok r1, db1) ->
  t2 < t1 + refreshExpiresIn env ->
  exists r2 db2,
    AuthService.refreshToken env t2
      (Response.refreshToken (Response.tokens r1)) db1 = (Ok r2, db2)
    /\ Response.id (Response.user r2) = Response.id (Response.user r1).
Proof.
  intros H Hlt.
  apply refreshToken_Ok_effect in H
    as (u & Hn & Ha & _ & _ & _ & -> & -> & ->).
  apply namedUser_findById in Hn.
  assert (findById (_id u) (save (rotated env t1 tokenA u) db)
          = Some (rotated env t1 tokenA u)) as Hu
    by (by apply (findById_save_found _ u)).
  rewrite (refreshToken_registered_Ok env t2 _ _ (rotated env t1 tokenA u)).
  - rewrite generateTokens_result. eauto.
  - apply generated_refresh_genuine.
  - by apply generated_refresh_expired.
  - exact Hu.
  - exact Ha.
  - apply registered_last.
Qed.

(** X5 for Alice: her token is rotated at second 2000, the new one at 3000. *)
Lemma refresh_token_chain_witness :
  exists r1 db1 r2 db2,
    AuthService.refreshToken Scenario.env0 2000 Scenario.tokenA [Scenario.alice]
    = (Ok r1, db1)
    /\ AuthService.refreshToken Scenario.env0 3000
         (Response.refreshToken (Response.tokens r1)) db1 = (Ok r2, db2).
Proof.
  destruct (AuthService.refreshToken Scenario.env0 2000 Scenario.tokenA
              [Scenario.alice]) as [[r1|e1] db1] eqn:E;
    [|vm_compute in E; discriminate].
  destruct (refresh_token_chain Scenario.env0 2000 3000 Scenario.tokenA
              [Scenario.alice] db1 r1 E eq_refl) as (r2 & db2 & H & _).
  exists r1, db1, r2, db2. split; [reflexivity | exact H].
Defined.

(** X6: whatever its outcome, [refreshToken] changes no user other than
    the one the presented token names, and it writes only when it succeeds
    or throws "Invalid refresh token". When it succeeds, the named user's
    sessions are the old ones without the presented token, in their order,
    followed by the token returned; every other field of that user is
    kept. *)
Theorem refreshToken_frame (env : Env) (now : Z) (t : Token)
        (db db' : Collection) (res : Result Response.AuthResult) :
  AuthService.refreshToken env now t db = (res, db') ->
  (forall id, ~ names t id -> findById id db' = findById id db)
  /\ (forall e, res = Throw e -> e <> invalidRefreshToken -> db' = db)
  /\ (forall r, res = Ok r ->
        exists u,
          namedUser t db = Some u
          /\ findById (_id u) db'
             = Some (with_refreshTokens u
                       (without t (refreshTokens u) ++
                          [ {| token := Response.refreshToken (Response.tokens r) |} ]))).
Proof.
  intros H. split; [|split].
  - intros id Hnot. rewrite refreshToken_unfold in H.
    destruct (verifyRefreshToken env now t) as [d|e] eqn:Hv;
      [|by injection H as _ <-].
    rewrite <- (namedUser_decoded _ _ _ _ db Hv) in H.
    destruct (namedUser t db) as [u|] eqn:Hn; [|by injection H as _ <-].
    assert (id <> _id u) as Hne
      by (intros ->; apply Hnot; by apply (namedUser_Some_id _ db)).
    destruct (isActive u); [|by injection H as _ <-].
    destruct (existsb _ (refreshTokens u)).
    + rewrite generateTokens_result in H. injection H as _ <-.
      rewrite save_save by done. by apply findById_save_ne.
    + injection H as _ <-. by apply findById_save_ne.
  - intros e -> Hne. rewrite refreshToken_unfold in H.
    destruct (verifyRefreshToken env now t) as [d|e'] eqn:Hv;
      [|by injection H as _ <-].
    destruct (findById (userId (claims d)) db) as [u|]; [|by injection H as _ <-].
    destruct (isActive u); [|by injection H as _ <-].
    destruct (existsb _ (refreshTokens u)).
    + rewrite generateTokens_result in H. discriminate.
    + injection H as <- _. contradiction.
  - intros r ->.
    apply refreshToken_Ok_effect in H
      as (u & Hn & _ & _ & _ & _ & -> & _ & ->).
    exists u. split; [done|].
    apply namedUser_findById in Hn. by apply (findById_save_found _ u).
Qed.

(** X6 for a token naming Alice: Bob's document is never touched. *)
Lemma refreshToken_frame_witness :
  findById "u2"
    (snd (AuthService.refreshToken Scenario.env0 2000 Scenario.tokenA
            [Scenario.alice; Scenario.bob]))
  = Some Scenario.bob.
Proof.
  destruct (AuthService.refreshToken Scenario.env0 2000 Scenario.tokenA
              [Scenario.alice; Scenario.bob]) as [res db'] eqn:E.
  destruct (refreshToken_frame _ _ _ _ _ _ E) as (Hframe & _).
  simpl. rewrite (Hframe "u2"); [reflexivity|].
  intros (j & Hj & Hid). injection Hj as <-. discriminate Hid.
Defined.

(** ** Logout and replay *)

(** X7: replaying a token after logging it out signs the user out
    everywhere. For an active user and a genuine, unexpired token naming
    that user, [logout] with the token followed by [refreshToken] with the
    same token fails with "Invalid refresh token" and leaves the user with
    no session at all, whatever other sessions the user held. *)
Theorem logout_then_replay_revokes_all (env : Env) (now : Z) (uid : string)
        (t : Token) (db : Collection) (u : User) :
  findById uid db = Some u -> isActive u = true -> names t uid ->
  refreshSignatureVerifies env t = true -> expired now t = false ->
  exists db1 db2,
    AuthService.logout uid (Some t) db = (Ok tt, db1)
    /\ AuthService.refreshToken env now t db1 = (Throw invalidRefreshToken, db2)
    /\ findById uid db2 = Some (with_refreshTokens u []).
Proof.
  intros Hf Ha (j & -> & Hj) Hs He.
  rewrite logout_unfold, Hf. simpl truthy. cbv iota.
  set (u1 := with_refreshTokens u (without (Jws j) (refreshTokens u))).
  assert (findById uid (save u1 db) = Some u1) as Hf1
    by (by apply (findById_save_found _ u)).
  assert (namedUser (Jws j) (save u1 db) = Some u1) as Hn
    by (simpl; by rewrite Hj).
  assert (~ registered (Jws j) u1) as Hnot.
  { unfold registered, u1. simpl. intros Hin.
    apply list_elem_of_fmap in Hin as (rt & Heq & Hin).
    apply elem_of_without in Hin as [_ Hin]. congruence. }
  destruct (refreshToken_unregistered env now (Jws j) _ u1 Hn Hnot)
    as (e & db2 & Hcall & Hkind).
  destruct (Hkind Hs He Ha) as [-> ->].
  do 2 eexists. split; [done|]. split; [exact Hcall|].
  by apply (findById_save_found _ u1).
Qed.

(** X7 for Alice holding two sessions: logging out one and replaying it
    also ends the other. *)
Lemma logout_then_replay_revokes_all_witness :
  exists db1 db2,
    AuthService.logout "u1" (Some Scenario.tokenA)
      [with_refreshTokens Scenario.alice
         [ {| token := Scenario.tokenA |};
           {| token := generateRefreshToken Scenario.env0 1200 (RefreshPayload "u1") |} ]]
    = (Ok tt, db1)
    /\ AuthService.refreshToken Scenario.env0 1500 Scenario.tokenA db1
       = (Throw invalidRefreshToken, db2)
    /\ findById "u1" db2 = Some (with_refreshTokens Scenario.alice []).
Proof.
  apply (logout_then_replay_revokes_all Scenario.env0 1500 "u1" Scenario.tokenA
           _ (with_refreshTokens Scenario.alice
                [ {| token := Scenario.tokenA |};
                  {| token := generateRefreshToken Scenario.env0 1200
                                (RefreshPayload "u1") |} ])).
  - reflexivity.
  - reflexivity.
  - eexists. split; reflexivity.
  - reflexivity.
  - reflexivity.
Defined.

(** X8: [logoutAll] returns normally for every user id; if the user exists
    it empties that user's sessions and keeps every other field, otherwise
    it changes nothing; no other user is touched, and a second [logoutAll]
    changes nothing more. *)
Theorem logoutAll_effect (uid : string) (db : Collection) :
  exists db',
    AuthService.logoutAll uid db = (Ok tt, db')
    /\ match findById uid db with
       | Some u => findById uid db' = Some (with_refreshTokens u [])
       | None => db' = db
       end
    /\ (forall id, id <> uid -> findById id db' = findById id db)
    /\ AuthService.logoutAll uid db' = (Ok tt, db').
Proof.
  unfold AuthService.logoutAll, bind, query, clearRefreshTokens, persist, ret.
  destruct (findById uid db) as [u|] eqn:Hf.
  - pose proof (findById_Some_id _ _ _ Hf) as Hid.
    assert (findById uid (save (with_refreshTokens u []) db)
            = Some (with_refreshTokens u [])) as Hf'
      by (by apply (findById_save_found _ u)).
    eexists. split; [done|]. split; [done|]. split.
    + intros id Hne. apply findById_save_ne. simpl. congruence.
    + rewrite Hf'. simpl. f_equal.
      change (with_refreshTokens (with_refreshTokens u []) [])
        with (with_refreshTokens u []).
      apply save_found. simpl. by rewrite Hid.
  - eexists. split; [done|]. split; [done|]. split; [done|]. by rewrite Hf.
Qed.

(** ** Registration that succeeds *)

Lemma findOne_app_last (q : User -> bool) (db : Collection) (u : User) :
  (forall d, d ∈ db -> q d = false) -> q u = true ->
  findOne q (db ++ [u]) = Some u.
Proof.
  unfold findOne. intros Hnone Hq.
  induction db as [|d rest IH]; simpl; [by rewrite Hq|].
  rewrite (Hnone d) by apply list_elem_of_here.
  apply IH. intros d' Hin. apply Hnone. by apply list_elem_of_further.
Qed.

Lemma findOne_none (q : User -> bool) (db : Collection) :
  (forall d, d ∈ db -> q d = false) -> findOne q db = None.
Proof.
  unfold findOne. intros Hnone.
  induction db as [|d rest IH]; simpl; [done|].
  rewrite (Hnone d) by apply list_elem_of_here.
  apply IH. intros d' Hin. apply Hnone. by apply list_elem_of_further.
Qed.

Lemma save_app_fresh (u u' : User) (db : Collection) :
  (forall d, d ∈ db -> _id d <> _id u') -> _id u = _id u' ->
  save u' (db ++ [u]) = db ++ [u'].
Proof.
  intros Hfresh Hid. induction db as [|d rest IH]; simpl.
  - by rewrite Hid, String.eqb_refl.
  - assert (String.eqb (_id d) (_id u') = false) as ->
      by (apply String.eqb_neq, Hfresh, list_elem_of_here).
    f_equal. apply IH. intros d' Hin. apply Hfresh. by apply list_elem_of_further.
Qed.


Lemma register_fresh (env : Env) (bcrypt_hash : string -> string -> string)
      (oid salt : string) (now : Z) (userData : Request.UserData)
      (db : Collection) :
  (forall u, u ∈ db -> email u <> Request.email userData
                       /\ username u <> Request.username userData) ->
  (forall u, u ∈ db -> _id u <> oid) ->
  exists r,
    AuthService.register env bcrypt_hash oid salt now userData db
    = (Ok r, db ++ [registeredUser env bcrypt_hash oid salt now userData])
    /\ Response.refreshToken (Response.tokens r)
       = generateRefreshToken env now (RefreshPayload oid)
    /\ Response.id (Response.user r) = oid
    /\ Response.role (Response.user r)
       = role (registeredUser env bcrypt_hash oid salt now userData).
Proof.
  intros Hnew Hfresh.
  unfold AuthService.register, bind, query, create.
  rewrite findOne_none.
  2:{ intros d Hin. destruct (Hnew d Hin) as [He Hu].
      apply String.eqb_neq in He, Hu. by rewrite He, Hu. }
  rewrite generateTokens_result. simpl.
  rewrite save_app_fresh by done.
  eexists. split; [reflexivity|]. done.
Qed.



(** X10: a user who has just registered can log in. Under the conditions
    of a successful [register], and provided bcrypt's [compare] accepts the
    password against the hash stored for it, [login] with the same e-mail
    and password succeeds at any later time, for the user just created. *)
Theorem register_then_login (env : Env)
        (bcrypt_hash : string -> string -> string)
        (bcrypt_compare : string -> string -> bool)
        (oid salt : string) (now now' : Z) (userData : Request.UserData)
        (db : Collection) :
  (forall u, u ∈ db -> email u <> Request.email userData
                       /\ username u <> Request.username userData) ->
  (forall u, u ∈ db -> _id u <> oid) ->
  bcrypt_compare (Request.password userData)
    (bcrypt_hash (Request.password userData) salt) = true ->
  exists r db' r' db'',
    AuthService.register env bcrypt_hash oid salt now userData db = (Ok r, db')
    /\ AuthService.login env bcrypt_compare now'
         (Request.email userData) (Request.password userData) db'
       = (Ok r', db'')
    /\ Response.id (Response.user r') = oid.
Proof.
  intros Hnew Hfresh Hcmp.
  destruct (register_fresh env bcrypt_hash oid salt now userData db Hnew Hfresh)
    as (r & Hcall & _).
  set (ru := registeredUser env bcrypt_hash oid salt now userData) in *.
  assert (findOne (fun u => String.eqb (email u) (Request.email userData))
            (db ++ [ru]) = Some ru) as Hf.
  { apply findOne_app_last.
    - intros d Hin. apply String.eqb_neq. by apply Hnew.
    - simpl. apply String.eqb_refl. }
  exists r, (db ++ [ru]).
  rewrite login_unfold, Hf. simpl isActive. cbv iota.
  unfold comparePassword. simpl password. rewrite Hcmp.
  rewrite generateTokens_result. eauto.
Qed.

(** X10 for Carol joining Alice and Bob. *)
Lemma register_then_login_witness :
  exists r db' r' db'',
    AuthService.register Scenario.env0 Scenario.test_hash "u3" "s3" 5000
      Fixtures.carol [Scenario.alice; Scenario.bob] = (Ok r, db')
    /\ AuthService.login Scenario.env0 Scenario.test_compare 6000
         "carol@x.com" "Qwe456!@#" db' = (Ok r', db'').
Proof.
  destruct (register_then_login Scenario.env0 Scenario.test_hash
              Scenario.test_compare "u3" "s3" 5000 6000 Fixtures.carol
              [Scenario.alice; Scenario.bob])
    as (r & db' & r' & db'' & H1 & H2 & _).
  - intros d Hin. apply elem_of_cons in Hin as [-> | Hin]; [split; discriminate|].
    apply list_elem_of_singleton in Hin as ->. split; discriminate.
  - intros d Hin. apply elem_of_cons in Hin as [-> | Hin]; [discriminate|].
    apply list_elem_of_singleton in Hin as ->. discriminate.
  - reflexivity.
  - exists r, db', r', db''. split; [exact H1 | exact H2].
Defined.

(** X11: after a successful [changePassword], [login] follows the new
    password. For an active user found by id and by e-mail, whose current
    password bcrypt accepts: if bcrypt accepts the new password against its
    new hash and refuses the old one against it, then [login] with the new
    password succeeds and [login] with the old one fails with "Invalid
    email or password". *)
Theorem changePassword_then_login (env : Env)
        (bcrypt_hash : string -> string -> string)
        (bcrypt_compare : string -> string -> bool)
        (salt uid cur new : string) (now : Z) (db : Collection) (u : User) :
  findById uid db = Some u ->
  findOne (fun d => String.eqb (email d) (email u)) db = Some u ->
  isActive u = true ->
  comparePassword bcrypt_compare u cur = true ->
  bcrypt_compare new (bcrypt_hash new salt) = true ->
  bcrypt_compare cur (bcrypt_hash new salt) = false ->
  exists db',
    AuthService.changePassword bcrypt_hash bcrypt_compare salt uid cur new db
    = (Ok "Password changed successfully", db')
    /\ (exists r db'',
          AuthService.login env bcrypt_compare now (email u) new db' = (Ok r, db''))
    /\ AuthService.login env bcrypt_compare now (email u) cur db'
       = (Throw invalidCredentials, db').
Proof.
  intros Hf Hmail Ha Hcur Hnew Hold.
  rewrite changePassword_unfold, Hf, Hcur.
  set (u' := with_refreshTokens (with_password u (bcrypt_hash new salt)) []).
  assert (findOne (fun d => String.eqb (email d) (email u)) (save u' db)
          = Some u') as Hmail'.
  { apply (findOne_save_hit _ _ u); [done | done |]. simpl. apply String.eqb_refl. }
  eexists. split; [done|]. rewrite !login_unfold, Hmail'.
  simpl isActive. rewrite Ha. unfold comparePassword. simpl password.
  rewrite Hnew, Hold. split; [|done].
  rewrite generateTokens_result. eauto.
Qed.

(** X11 for Alice. *)
Lemma changePassword_then_login_witness :
  exists db',
    AuthService.changePassword Scenario.test_hash Scenario.test_compare
      "s9" "u1" "Abc123!@#" "New456!@#" [Scenario.alice; Scenario.bob]
    = (Ok "Password changed successfully", db')
    /\ AuthService.login Scenario.env0 Scenario.test_compare 7000
         "alice@x.com" "Abc123!@#" db'
       = (Throw invalidCredentials, db').
Proof.
  destruct (changePassword_then_login Scenario.env0 Scenario.test_hash
              Scenario.test_compare "s9" "u1" "Abc123!@#" "New456!@#" 7000
              [Scenario.alice; Scenario.bob] Scenario.alice
              eq_refl eq_refl eq_refl eq_refl eq_refl eq_refl)
    as (db' & H1 & _ & H3).
  exists db'. split; [exact H1 | exact H3].
Defined.

(** ** The authentication middleware *)

Import AuthMiddleware.

Lemma authenticate_unfold (env : Env) (parseToken : string -> Token) (now : Z)
      (authorization : option string) (db : Collection) :
  authenticate env parseToken now authorization db =
  match extractTokenFromHeader authorization with
  | Throw e => (Throw e, db)
  | Ok s =>
      match verifyAccessToken env now (parseToken s) with
      | Throw e => (Throw e, db)
      | Ok d =>
          match findById (userId (claims d)) db with
          | None => (Throw userNotFound, db)
          | Some u => if isActive u then (Ok u, db) else (Throw userNotFound, db)
          end
      end
  end.
Proof.
  unfold authenticate, bind, liftResult, query, throw, ret.
  destruct (extractTokenFromHeader authorization) as [s|e]; [|done].
  destruct (verifyAccessToken env now (parseToken s)) as [d|e]; [|done].
  destruct (findById (userId (claims d)) db) as [u|]; [|done].
  by destruct (isActive u).
Qed.

Lemma verifyAccessToken_own (env : Env) (now now' : Z) (p : Payload) :
  now' < now + accessExpiresIn env ->
  exists d, verifyAccessToken env now' (generateAccessToken env now p) = Ok d
            /\ claims d = p.
Proof.
  intros Hlt.
  unfold verifyAccessToken, generateAccessToken, sign, verify; simpl.
  rewrite String.eqb_refl. simpl.
  destruct (Z.leb_spec (now + accessExpiresIn env) now'); [lia|].
  eexists. split; reflexivity.
Qed.

(** X12: [authenticate] lets a request through exactly when its header is
    "Bearer " followed by a token that [verifyAccessToken] accepts and that
    names a stored, active user; [req.user] is then that stored document.
    A request without the header fails with "No valid token provided", a
    valid token of a deactivated or deleted user with "User not found or
    inactive"; in no case is the collection written. *)
Theorem authenticate_passes_iff (env : Env) (parseToken : string -> Token)
        (now : Z) (authorization : option string) (db : Collection) :
  (forall res db',
      authenticate env parseToken now authorization db = (res, db') -> db' = db)
  /\ (forall u,
        authenticate env parseToken now authorization db = (Ok u, db)
        <-> exists s d,
              authorization = Some (String.append "Bearer " s)
              /\ verifyAccessToken env now (parseToken s) = Ok d
              /\ findById (userId (claims d)) db = Some u
              /\ isActive u = true)
  /\ (authorization = None ->
      authenticate env parseToken now authorization db
      = (Throw (AuthenticationError "No valid token provided"), db))
  /\ (forall s d,
        authorization = Some (String.append "Bearer " s) ->
        verifyAccessToken env now (parseToken s) = Ok d ->
        (forall u, findById (userId (claims d)) db = Some u -> isActive u = false) ->
        authenticate env parseToken now authorization db = (Throw userNotFound, db)).
Proof.
  rewrite authenticate_unfold. split; [|split; [|split]].
  - intros res db'.
    destruct (extractTokenFromHeader authorization) as [s|e]; [|by intros [= _ <-]].
    destruct (verifyAccessToken env now (parseToken s)) as [d|e]; [|by intros [= _ <-]].
    destruct (findById (userId (claims d)) db) as [u|]; [|by intros [= _ <-]].
    destruct (isActive u); by intros [= _ <-].
  - intros u. split.
    + destruct (extractTokenFromHeader authorization) as [s|e] eqn:Hx; [|discriminate].
      apply extractTokenFromHeader_Ok_iff in Hx.
      destruct (verifyAccessToken env now (parseToken s)) as [d|e] eqn:Hv; [|discriminate].
      destruct (findById (userId (claims d)) db) as [u'|] eqn:Hf; [|discriminate].
      destruct (isActive u') eqn:Ha; [|discriminate].
      intros [= <-]. exists s, d. done.
    + intros (s & d & Hx & Hv & Hf & Ha).
      apply extractTokenFromHeader_Ok_iff in Hx. by rewrite Hx, Hv, Hf, Ha.
  - by intros ->.
  - intros s d Hx Hv Hinactive.
    apply extractTokenFromHeader_Ok_iff in Hx. rewrite Hx, Hv.
    destruct (findById (userId (claims d)) db) as [u|] eqn:Hf; [|done].
    by rewrite (Hinactive u eq_refl).
Qed.

(** X12 for Alice's access token, and for the same token once her account
    is deactivated. *)
Lemma authenticate_passes_iff_witness :
  authenticate Scenario.env0 Fixtures.test_parse 1500
    (Some "Bearer alice.access.token") [Scenario.alice; Scenario.bob]
  = (Ok Scenario.alice, [Scenario.alice; Scenario.bob])
  /\ authenticate Scenario.env0 Fixtures.test_parse 1500
       (Some "Bearer alice.access.token") [Scenario.alice_inactive; Scenario.bob]
     = (Throw userNotFound, [Scenario.alice_inactive; Scenario.bob]).
Proof.
  split.
  - apply (proj1 (proj2 (authenticate_passes_iff Scenario.env0
                           Fixtures.test_parse 1500
                           (Some "Bearer alice.access.token")
                           [Scenario.alice; Scenario.bob]))).
    do 2 eexists. split; [reflexivity|]. split; [reflexivity|].
    split; reflexivity.
  - eapply (proj2 (proj2 (proj2 (authenticate_passes_iff Scenario.env0
                                   Fixtures.test_parse 1500
                                   (Some "Bearer alice.access.token")
                                   [Scenario.alice_inactive; Scenario.bob])))).
    + reflexivity.
    + reflexivity.
    + intros u Hu. vm_compute in Hu. by injection Hu as <-.
Defined.

(** X13: the access token a successful [login] returns authenticates that
    user: sent as "Bearer <token>" at any time before it expires, it passes
    [authenticate], and [req.user] is the user's stored document, now
    holding the refresh token of that login. *)
Theorem login_token_authenticates (env : Env) (parseToken : string -> Token)
        (bcrypt_compare : string -> string -> bool)
        (now now' : Z) (mail pw s : string) (db db' : Collection)
        (r : Response.AuthResult) :
  AuthService.login env bcrypt_compare now mail pw db = (Ok r, db') ->
  parseToken s = Response.accessToken (Response.tokens r) ->
  now' < now + accessExpiresIn env ->
  exists u,
    authenticate env parseToken now' (Some (String.append "Bearer " s)) db'
    = (Ok u, db')
    /\ _id u = Response.id (Response.user r)
    /\ findById (_id u) db' = Some u
    /\ registered (Response.refreshToken (Response.tokens r)) u.
Proof.
  intros H Hs Hlt.
  apply login_Ok_inv in H as (u & Hf & Ha & _ & -> & -> & Hacc & ->).
  apply findOne_elem in Hf as [Hin _].
  assert (findById (_id u) (save (loggedIn env now u) db)
          = Some (loggedIn env now u)) as Hu
    by (by apply findById_after_save).
  rewrite authenticate_unfold.
  rewrite (proj2 (extractTokenFromHeader_Ok_iff _ s) eq_refl).
  rewrite Hs, Hacc.
  destruct (verifyAccessToken_own env now now'
              (AccessPayload (_id u) (username u) (email u) (role u)) Hlt)
    as (d & -> & ->).
  simpl userId. rewrite Hu. simpl isActive. rewrite Ha.
  exists (loggedIn env now u). split; [done|]. split; [done|].
  split; [exact Hu | apply registered_last].
Qed.

(** X13 for Alice: the token of a login at second 5000, sent at 6000. *)
Lemma login_token_authenticates_witness :
  exists r db' u,
    AuthService.login Scenario.env0 Scenario.test_compare 5000
      "alice@x.com" "Abc123!@#" [Scenario.alice; Scenario.bob] = (Ok r, db')
    /\ authenticate Scenario.env0
         (fun _ => Response.accessToken (Response.tokens r)) 6000
         (Some "Bearer alice.second.token") db'
       = (Ok u, db').
Proof.
  destruct (AuthService.login Scenario.env0 Scenario.test_compare 5000
              "alice@x.com" "Abc123!@#" [Scenario.alice; Scenario.bob])
    as [[r|e] db'] eqn:E; [|vm_compute in E; discriminate].
  destruct (login_token_authenticates Scenario.env0
              (fun _ => Response.accessToken (Response.tokens r))
              Scenario.test_compare 5000 6000 "alice@x.com" "Abc123!@#"
              "alice.second.token" [Scenario.alice; Scenario.bob] db' r
              E eq_refl eq_refl) as (u & H & _).
  exists r, db', u. split; [reflexivity | exact H].
Defined.

(** X14: [optionalAuth] always calls [next()] without an error and never
    writes the collection; it sets [req.user] to a user exactly when
    [authenticate] would let the same request through with that user. *)
Theorem optionalAuth_never_fails (env : Env) (parseToken : string -> Token)
        (now : Z) (authorization : option string) (db : Collection) :
  exists req_user,
    optionalAuth env parseToken now authorization db = (Ok req_user, db)
    /\ forall u,
         req_user = Some u
         <-> authenticate env parseToken now authorization db = (Ok u, db).
Proof.
  rewrite authenticate_unfold.
  unfold optionalAuth, tryCatch, bind, liftResult, query, ret.
  destruct authorization as [h|].
  2:{ exists None. split; [done|]. intros u. split; discriminate. }
  destruct (String.eqb h EmptyString) eqn:E0.
  { apply String.eqb_eq in E0 as ->. exists None. split; [done|].
    intros u. split; discriminate. }
  destruct (extractTokenFromHeader (Some h)) as [s|e].
  2:{ exists None. split; [done|]. intros u. split; discriminate. }
  destruct (verifyAccessToken env now (parseToken s)) as [d|e].
  2:{ exists None. split; [done|]. intros u. split; discriminate. }
  destruct (findById (userId (claims d)) db) as [u'|].
  2:{ exists None. split; [done|]. intros u. split; discriminate. }
  destruct (isActive u').
  - exists (Some u'). split; [done|]. intros u. split; intros [= ->]; done.
  - exists None. split; [done|]. intros u. split; discriminate.
Qed.

(** ** Role and ownership guards *)

Import AuthRoutes.

(** X15: behind [authenticate, authorize(...roles)] a request goes on
    exactly when its bearer token verifies, names a stored active user, and
    that user's stored role is among [roles]. The role written in the token
    plays no part: two access tokens that differ only in their role claim
    get the same answer. *)
Theorem authorize_uses_stored_role (env : Env) (parseToken : string -> Token)
        (roles : list string) (now : Z) (authorization : option string)
        (db : Collection) :
  (authenticateThenAuthorize env parseToken roles now authorization db = Next
   <-> exists s d u,
         authorization = Some (String.append "Bearer " s)
         /\ verifyAccessToken env now (parseToken s) = Ok d
         /\ findById (userId (claims d)) db = Some u
         /\ isActive u = true /\ role u ∈ roles)
  /\ (forall s s' issued uid uname mail rl rl',
        parseToken s
        = generateAccessToken env issued (AccessPayload uid uname mail rl) ->
        parseToken s'
        = generateAccessToken env issued (AccessPayload uid uname mail rl') ->
        authenticateThenAuthorize env parseToken roles now
          (Some (String.append "Bearer " s)) db
        = authenticateThenAuthorize env parseToken roles now
            (Some (String.append "Bearer " s')) db).
Proof.
  unfold authenticateThenAuthorize. split.
  - rewrite authenticate_unfold. split.
    + destruct (extractTokenFromHeader authorization) as [s|e] eqn:Hx; [|discriminate].
      apply extractTokenFromHeader_Ok_iff in Hx.
      destruct (verifyAccessToken env now (parseToken s)) as [d|e] eqn:Hv; [|discriminate].
      destruct (findById (userId (claims d)) db) as [u|] eqn:Hf; [|discriminate].
      destruct (isActive u) eqn:Ha; [|discriminate].
      unfold authorize.
      destruct (bool_decide (role u ∈ roles)) eqn:Hr; simpl; [|discriminate].
      apply bool_decide_eq_true in Hr. intros _. exists s, d, u. done.
    + intros (s & d & u & Hx & Hv & Hf & Ha & Hr).
      apply extractTokenFromHeader_Ok_iff in Hx. rewrite Hx, Hv, Hf, Ha.
      unfold authorize. by rewrite bool_decide_eq_true_2.
  - intros s s' issued uid uname mail rl rl' Hs Hs'.
    rewrite !authenticate_unfold.
    rewrite (proj2 (extractTokenFromHeader_Ok_iff _ s) eq_refl).
    rewrite (proj2 (extractTokenFromHeader_Ok_iff _ s') eq_refl).
    rewrite Hs, Hs'.
    unfold verifyAccessToken, generateAccessToken, sign, verify. simpl.
    destruct (negb (String.eqb (JWT_SECRET env) (JWT_SECRET env))); [done|].
    destruct (issued + accessExpiresIn env <=? now); done.
Qed.

(** X15 for an admin-only route and Alice, whose stored role is "user". *)
Lemma authorize_uses_stored_role_witness :
  authenticateThenAuthorize Scenario.env0 Fixtures.test_parse ["user"] 1500
    (Some "Bearer alice.access.token") [Scenario.alice; Scenario.bob]
  = Next.
Proof.
  apply (proj1 (authorize_uses_stored_role Scenario.env0 Fixtures.test_parse
                  ["user"] 1500 (Some "Bearer alice.access.token")
                  [Scenario.alice; Scenario.bob])).
  exists "alice.access.token". eexists. exists Scenario.alice.
  split; [reflexivity|]. split; [reflexivity|]. split; [reflexivity|].
  split; [reflexivity | apply list_elem_of_here].
Defined.

(** X16: [requireOwnership(field)] lets an admin through whatever the
    request carries, and never lets an unauthenticated request through. Any
    other user passes exactly when the object consulted has the user's id
    under [field]; that object is [req.resource] when it is set, and the
    request body only when it is not. *)
Theorem requireOwnership_passes_iff (resourceField : string)
        (req_user : option User)
        (req_resource req_body : option (gmap string string)) :
  (requireOwnership resourceField req_user req_resource req_body = Next
   <-> exists u,
         req_user = Some u
         /\ (role u = "admin"
             \/ (exists r, req_resource = Some r
                           /\ r !! resourceField = Some (_id u))
             \/ (req_resource = None
                 /\ exists b, req_body = Some b
                              /\ b !! resourceField = Some (_id u))))
  /\ (forall u r, req_user = Some u -> role u <> "admin" ->
                  req_resource = Some r ->
                  r !! resourceField <> Some (_id u) ->
                  requireOwnership resourceField req_user req_resource req_body
                  = NextError (AuthorizationError
                                 "Access denied. You can only access your own resources")).
Proof.
  unfold requireOwnership. split.
  - split.
    + destruct req_user as [u|]; [|discriminate].
      destruct (String.eqb (role u) "admin") eqn:Eadm.
      { apply String.eqb_eq in Eadm. intros _. exists u. split; [done | by left]. }
      destruct req_resource as [r|].
      * destruct (bool_decide (r !! resourceField = Some (_id u))) eqn:Eb;
          simpl; [|discriminate].
        apply bool_decide_eq_true in Eb. intros _. exists u. split; [done|].
        right. left. eauto.
      * destruct req_body as [b|]; [|discriminate].
        destruct (bool_decide (b !! resourceField = Some (_id u))) eqn:Eb;
          simpl; [|discriminate].
        apply bool_decide_eq_true in Eb. intros _. exists u. split; [done|].
        right. right. eauto.
    + intros (u & -> & [Hadm | [(r & -> & Hr) | (-> & b & -> & Hb)]]).
      * rewrite Hadm. done.
      * destruct (String.eqb (role u) "admin"); [done|].
        by rewrite bool_decide_eq_true_2.
      * destruct (String.eqb (role u) "admin"); [done|].
        by rewrite bool_decide_eq_true_2.
  - intros u r -> Hadm -> Hr.
    apply String.eqb_neq in Hadm. rewrite Hadm.
    by rewrite bool_decide_eq_false_2.
Qed.

(** X16 for Alice: a post of Bob's stays closed to her even when the body
    she sends names her as its author. *)
Lemma requireOwnership_passes_iff_witness :
  requireOwnership "author" (Some Scenario.alice)
    (Some (<["author" := "u2"]> ∅)) (Some (<["author" := "u1"]> ∅))
  = NextError (AuthorizationError
                 "Access denied. You can only access your own resources").
Proof.
  apply (proj2 (requireOwnership_passes_iff "author" (Some Scenario.alice)
                  (Some (<["author" := "u2"]> ∅)) (Some (<["author" := "u1"]> ∅)))
           Scenario.alice (<["author" := "u2"]> ∅)).
  - reflexivity.
  - discriminate.
  - reflexivity.
  - rewrite lookup_insert_eq. discriminate.
Defined.

(** ** The [/me] route and the refresh handler *)


(** X18: the refresh handler reads the cookie first and the request body
    only when there is no (non-empty) cookie. With neither it answers 401
    "Refresh token not provided" and touches nothing; with a cookie, the
    body's token is ignored. Otherwise it hands the chosen token to the
    service: on success it answers 200 and sets the cookie to the refresh
    token the service returned, and a service error is passed on. *)
Theorem refresh_handler_token_choice (env : Env) (now : Z)
        (cookie body : option Token) (db : Collection) :
  ((cookie = None \/ cookie = Some (Opaque EmptyString)) ->
   (body = None \/ body = Some (Opaque EmptyString)) ->
   AuthHandlers.refreshToken env now cookie body db
   = (Ok {| AuthHandlers.status := 401; AuthHandlers.cookie := None;
            AuthHandlers.success := false;
            AuthHandlers.message := "Refresh token not provided";
            AuthHandlers.data := None |}, db))
  /\ (forall c, cookie = Some c -> truthy c = true ->
        AuthHandlers.refreshToken env now cookie body db
        = AuthHandlers.refreshToken env now cookie None db)
  /\ (forall t, AuthHandlers.orElse cookie body = Some t -> truthy t = true ->
        match AuthService.refreshToken env now t db with
        | (Ok r, db') =>
            exists reply,
              AuthHandlers.refreshToken env now cookie body db = (Ok reply, db')
              /\ AuthHandlers.status reply = 200
              /\ AuthHandlers.cookie reply
                 = Some (Response.refreshToken (Response.tokens r))
        | (Throw e, db') =>
            AuthHandlers.refreshToken env now cookie body db = (Throw e, db')
        end).
Proof.
  unfold AuthHandlers.refreshToken. split; [|split].
  - intros [-> | ->] [-> | ->]; reflexivity.
  - intros c -> Hc. unfold AuthHandlers.orElse. by rewrite Hc.
  - intros t -> Ht. rewrite Ht. simpl. unfold bind, ret.
    destruct (AuthService.refreshToken env now t db) as [[r|e] db']; [|done].
    eexists. split; [reflexivity|]. done.
Qed.

(** X18 for Alice's token sent in the body, with no cookie. *)
Lemma refresh_handler_token_choice_witness :
  exists reply db',
    AuthHandlers.refreshToken Scenario.env0 2000 None (Some Scenario.tokenA)
      [Scenario.alice] = (Ok reply, db')
    /\ AuthHandlers.status reply = 200.
Proof.
  pose proof (proj2 (proj2 (refresh_handler_token_choice Scenario.env0 2000
                              None (Some Scenario.tokenA) [Scenario.alice]))
                Scenario.tokenA eq_refl eq_refl) as H.
  destruct (AuthService.refreshToken Scenario.env0 2000 Scenario.tokenA
              [Scenario.alice]) as [[r|e] db'] eqn:E;
    [|vm_compute in E; discriminate].
  destruct H as (reply & Hcall & Hst & _).
  exists reply, db'. split; [exact Hcall | exact Hst].
Defined.

(** ** Tokens across operations *)

(** X19: the refresh token a successful [register] returns is usable:
    under the conditions of a successful registration, presenting it to
    [refreshToken] at any time before its expiry mints a new pair for the
    user just created. *)
Theorem register_token_refreshes (env : Env)
        (bcrypt_hash : string -> string -> string)
        (oid salt : string) (now now' : Z) (userData : Request.UserData)
        (db : Collection) :
  (forall u, u ∈ db -> email u <> Request.email userData
                       /\ username u <> Request.username userData) ->
  (forall u, u ∈ db -> _id u <> oid) ->
  now' < now + refreshExpiresIn env ->
  exists r db' r' db'',
    AuthService.register env bcrypt_hash oid salt now userData db = (Ok r, db')
    /\ AuthService.refreshToken env now'
         (Response.refreshToken (Response.tokens r)) db' = (Ok r', db'')
    /\ Response.id (Response.user r') = oid.
Proof.
  intros Hnew Hfresh Hlt.
  destruct (register_fresh env bcrypt_hash oid salt now userData db Hnew Hfresh)
    as (r & Hcall & Htok & _).
  set (ru := registeredUser env bcrypt_hash oid salt now userData) in *.
  assert (findById oid (db ++ [ru]) = Some ru) as Hu.
  { apply findOne_app_last.
    - intros d Hin. apply String.eqb_neq. by apply Hfresh.
    - simpl. apply String.eqb_refl. }
  exists r, (db ++ [ru]). rewrite Hcall, Htok.
  rewrite (refreshToken_registered_Ok env now' _ _ ru).
  - rewrite generateTokens_result. eauto.
  - apply generated_refresh_genuine.
  - by apply generated_refresh_expired.
  - exact Hu.
  - reflexivity.
  - unfold registered. simpl. apply list_elem_of_here.
Qed.

(** X19 for Carol: registered at second 5000, refreshing at 6000. *)
Lemma register_token_refreshes_witness :
  exists r db' r' db'',
    AuthService.register Scenario.env0 Scenario.test_hash "u3" "s3" 5000
      Fixtures.carol [Scenario.alice; Scenario.bob] = (Ok r, db')
    /\ AuthService.refreshToken Scenario.env0 6000
         (Response.refreshToken (Response.tokens r)) db' = (Ok r', db'').
Proof.
  destruct (register_token_refreshes Scenario.env0 Scenario.test_hash
              "u3" "s3" 5000 6000 Fixtures.carol [Scenario.alice; Scenario.bob])
    as (r & db' & r' & db'' & H1 & H2 & _).
  - intros d Hin. apply elem_of_cons in Hin as [-> | Hin]; [split; discriminate|].
    apply list_elem_of_singleton in Hin as ->. split; discriminate.
  - intros d Hin. apply elem_of_cons in Hin as [-> | Hin]; [discriminate|].
    apply list_elem_of_singleton in Hin as ->. discriminate.
  - reflexivity.
  - exists r, db', r', db''. split; [exact H1 | exact H2].
Defined.


